(** * Mercado: the metrics and alerting engine of posicionador_institucional

    A shallow embedding of the analyzers (volume, open interest, events), of
    the helpers that query the event calendar and order alerts, and of the
    report generator's consolidation step, followed by the properties of the
    specification that are stated about them.

    Modelling conventions.
    - A pandas DataFrame of option contracts is a list of typed rows
      ([Contract], the attributes of the data model) together with its set of
      column labels and the values of the columns that are not Contract
      attributes.  Volume and open interest are non-negative integers, as in
      the data model; real-valued columns and every ratio are exact rationals
      ([Qc]): rounding, NaN and infinities of IEEE doubles are not modelled.
    - A Python dict with string keys is a [gmap string _]; where the order of
      iteration matters (the calendar, the per-category metrics, the results
      per symbol) it is an association list in insertion order.
    - A method that assigns into its argument returns the argument's final
      state next to its result.
    - The clock is a parameter: [datetime.now()] is the argument [now]. *)

From Stdlib Require Import QArith Qcanon Qround Qcabs Sorted.
From stdpp Require Import gmap strings list numbers pretty.

Local Open Scope Qc_scope.

(** ** Python values *)

(** The values stored in alerts and in table cells: text and numbers. *)
Inductive Valor :=
  | VStr (s : string)
  | VNum (q : Qc).

#[global] Instance Valor_eq_dec : EqDecision Valor.
Proof. solve_decision. Defined.

Definition N2Qc (n : N) : Qc := Qc_of_Z (Z.of_N n).
Definition nat2Qc (n : nat) : Qc := Qc_of_Z (Z.of_nat n).

(** [x > y] on numbers. *)
Definition Qc_gtb (x y : Qc) : bool := bool_decide (y < x).

(** [d.get(k, 0)] on a dict of numbers. *)
Definition get0 (d : gmap string Qc) (k : string) : Qc := default 0 (d !! k).

(** ** Format specifications of f-strings

    [redondear q] is the integer nearest to [q], ties to even. *)
Definition redondear (q : Qc) : Z :=
  let f := Qfloor q in
  let r := q - Qc_of_Z f in
  if bool_decide (r < Q2Qc (1 # 2)) then f
  else if bool_decide (Q2Qc (1 # 2) < r) then (f + 1)%Z
  else if Z.even f then f else (f + 1)%Z.

Fixpoint ceros (n : nat) : string :=
  match n with O => "" | S n' => "0" +:+ ceros n' end.

(** [f"{x:.{d}f}"]: [x] rounded to [d] decimals ([d > 0]). *)
Definition fmt_f (d : nat) (x : Qc) : string :=
  let esc := (10 ^ Z.of_nat d)%Z in
  let n := redondear (x * Qc_of_Z esc) in
  let a := Z.abs n in
  let frac := pretty (a mod esc)%Z in
  (if (n <? 0)%Z then "-" else "") +:+ pretty (a / esc)%Z +:+ "."
    +:+ ceros (d - String.length frac) +:+ frac.

(** [f"{x:.{d}%}"]: [100 * x] rounded to [d] decimals, then a percent sign. *)
Definition fmt_pct (d : nat) (x : Qc) : string :=
  fmt_f d (x * Q2Qc 100) +:+ "%".

(** [f"{n}"] for an integer. *)
Definition fmt_int (n : Z) : string := pretty n.

(** ** The built-in [sorted]: a stable sort

    [sort_by leb l] keeps the elements that [leb] does not order strictly in
    the order they have in [l]. *)
Fixpoint insert_by {A} (leb : A → A → bool) (x : A) (l : list A) : list A :=
  match l with
  | [] => [x]
  | y :: l' => if leb x y then x :: y :: l' else y :: insert_by leb x l'
  end.

Definition sort_by {A} (leb : A → A → bool) (l : list A) : list A :=
  foldr (insert_by leb) [] l.

(** [sorted(l, key=key)] with integer keys. *)
Definition sorted {A} (key : A → nat) (l : list A) : list A :=
  sort_by (λ x y, key x <=? key y)%nat l.

(** ** pandas and numpy operations on columns *)
Module pd.

(** [Series.sum()] of an integer column, of a real column. *)
Definition sum (xs : list N) : N := foldr N.add 0%N xs.
Definition sumQ (xs : list Qc) : Qc := foldr Qcplus 0 xs.

(** [Series.mean()]; the analyzers call it on non-empty columns only. *)
Definition mean (xs : list Qc) : Qc := sumQ xs / nat2Qc (length xs).

(** [Series.quantile(q)], linear interpolation between the two closest
    ranks of the sorted column. *)
Definition quantile (q : Qc) (xs : list Qc) : Qc :=
  let s := sort_by (λ x y, bool_decide (x ≤ y)) xs in
  let h := nat2Qc (length xs - 1) * q in
  let lo := Z.to_nat (Qfloor h) in
  let frac := h - Qc_of_Z (Qfloor h) in
  let v_lo := default 0 (s !! lo) in
  let v_hi := default v_lo (s !! S lo) in
  v_lo + frac * (v_hi - v_lo).

(** [DataFrame.nlargest(n, col)]: the [n] rows with the largest value of
    the column, ties in the order of the frame (keep='first'). *)
Definition nlargest {A} (n : nat) (col : A → N) (rows : list A) : list A :=
  take n (sort_by (λ x y, col y <=? col x)%N rows).

(** [df.groupby(key)[col].sum()]: the sum of the column per distinct key.
    [agrupar] lists the groups in the order their keys first appear; pandas
    then sorts them by key. *)
Fixpoint acumular {K} `{EqDecision K} (k : K) (v : N) (g : list (K * N)) : list (K * N) :=
  match g with
  | [] => [(k, v)]
  | (k', v') :: g' =>
      if decide (k = k') then (k', (v' + v)%N) :: g' else (k', v') :: acumular k v g'
  end.

Definition agrupar {A K} `{EqDecision K} (key : A → K) (col : A → N) (rows : list A)
    : list (K * N) :=
  foldl (λ g r, acumular (key r) (col r) g) [] rows.

Definition groupby_sum {A K} `{EqDecision K} (leb : K → K → bool)
    (key : A → K) (col : A → N) (rows : list A) : list (K * N) :=
  sort_by (λ a b, leb a.1 b.1) (agrupar key col rows).

(** [Series.value_counts()]: how often each value occurs, most frequent
    first. *)
Definition value_counts {K} `{EqDecision K} (xs : list K) : list (K * N) :=
  sort_by (λ a b, b.2 <=? a.2)%N (agrupar id (λ _, 1%N) xs).

End pd.

Module np.

(** [np.where(cond, x, y)], row by row.  numpy evaluates [x] and [y] on
    every row (a division by zero there is a warning, not an exception) and
    then selects. *)
Definition where_ {A B} (cond : A → bool) (x y : A → B) (rows : list A) : list B :=
  map (λ r, if cond r then x r else y r) rows.

End np.

(** ** Data model (models/options_data.py, data/data_manager.py) *)

Inductive Tipo := CALL | PUT.
Inductive Clase := ITM | OTM.

#[global] Instance Tipo_eq_dec : EqDecision Tipo.
Proof. solve_decision. Defined.

#[global] Instance Clase_eq_dec : EqDecision Clase.
Proof. solve_decision. Defined.

(** One row of the options table. *)
Record Contract := {
  symbol : string;
  expiration : string;
  strike : Qc;
  tipo : Tipo;
  volume : N;
  openInterest : N;
  precio_subyacente : Qc;
  días_vencimiento : Z;
  moneyness : Qc;
  itm_otm : Clase;
}.

(** The options table.  [columns] is the set of labels; an attribute of
    [Contract] is read as a column only under its label.  [extra] holds the
    values of the columns that are not attributes of [Contract]. *)
Record DataFrame := {
  filas : list Contract;
  columns : gset string;
  extra : gmap string (list Valor);
}.

(** [df.empty] *)
Definition empty (df : DataFrame) : bool :=
  match filas df with [] => true | _ => false end.

(** [label in df.columns] *)
Definition in_columns (label : string) (df : DataFrame) : bool :=
  bool_decide (label ∈ columns df).

(** [df[label] = xs]: adds the column, or replaces its values. *)
Definition setitem (df : DataFrame) (label : string) (xs : list Valor) : DataFrame :=
  {| filas := filas df;
     columns := {[label]} ∪ columns df;
     extra := <[label := xs]> (extra df) |}.

(** The labels of the frames that [DataManager.obtener_datos_opciones]
    builds, without and with [include_moneyness]. *)
Definition columnas_base : gset string :=
  {["symbol"; "expiration"; "strike"; "tipo"; "volume"; "openInterest";
    "precio_subyacente"; "días_vencimiento"]}.

Definition columnas_moneyness : gset string :=
  columnas_base ∪ {["moneyness"; "itm_otm"]}.

(** The classification the data manager stores in 'itm_otm'. *)
Definition clasificar (t : Tipo) (m : Qc) : Clase :=
  match t with
  | CALL => if Qc_gtb m 1 then ITM else OTM
  | PUT => if Qc_gtb 1 m then ITM else OTM
  end.

(** ** Dates (the standard module datetime)

    A naive [datetime] is the number of microseconds since
    0001-01-01 00:00:00; a [timedelta] is a number of microseconds. *)
Module datetime.

Definition US_POR_DÍA : Z := 86400000000.

(** [datetime.min] and [datetime.max] (9999-12-31 23:59:59.999999). *)
Definition MIN : Z := 0.
Definition MAX : Z := 3652059 * US_POR_DÍA - 1.

Definition _is_leap (year : Z) : bool :=
  (year mod 4 =? 0)%Z && (negb (year mod 100 =? 0)%Z || (year mod 400 =? 0)%Z).

Definition _days_before_year (year : Z) : Z :=
  let y := (year - 1)%Z in (y * 365 + y / 4 - y / 100 + y / 400)%Z.

Definition _DAYS_BEFORE_MONTH : list Z :=
  [0; 31; 59; 90; 120; 151; 181; 212; 243; 273; 304; 334]%Z.

Definition _days_before_month (year month : Z) : Z :=
  (default 0 (_DAYS_BEFORE_MONTH !! Z.to_nat (month - 1))
   + (if (2 <? month)%Z && _is_leap year then 1 else 0))%Z.

Definition _ymd2ord (year month day : Z) : Z :=
  (_days_before_year year + _days_before_month year month + day)%Z.

(** [datetime(year, month, day)]: midnight of a valid calendar day. *)
Definition datetime (year month day : Z) : Z :=
  ((_ymd2ord year month day - 1) * US_POR_DÍA)%Z.

(** [timedelta(days=n)]; OverflowError ([None]) beyond 999999999 days. *)
Definition timedelta (days : Z) : option Z :=
  if (Z.abs days <=? 999999999)%Z then Some (days * US_POR_DÍA)%Z else None.

(** [t + delta]; OverflowError ([None]) outside [MIN .. MAX]. *)
Definition add (t delta : Z) : option Z :=
  let r := (t + delta)%Z in
  if (MIN <=? r)%Z && (r <=? MAX)%Z then Some r else None.

(** [(t - u).days]: a timedelta is normalised with
    [0 <= seconds < 86400], so [days] is the floor. *)
Definition days_between (t u : Z) : Z := ((t - u) / US_POR_DÍA)%Z.

End datetime.

(** ** config.py *)
Module Config.

Definition UMBRAL_PCR_DEFENSIVO : Qc := Q2Qc (12 # 10).
Definition UMBRAL_ROTACION : Qc := Q2Qc (8 # 10).
Definition PERCENTIL_VOLUMEN_ALTO : Qc := Q2Qc 95.
Definition DIAS_ADELANTE_EVENTOS : Z := 90.

(** The static calendar, in the order of the source. *)
Definition EVENTOS_CALENDARIO : list (string * list Z) :=
  [ ("earnings_season",
      [ datetime.datetime 2025 1 15; datetime.datetime 2025 4 15;
        datetime.datetime 2025 7 15; datetime.datetime 2025 10 15;
        datetime.datetime 2026 1 20; datetime.datetime 2026 4 15 ]);
    ("fomc_meetings",
      [ datetime.datetime 2025 1 29; datetime.datetime 2025 3 19;
        datetime.datetime 2025 5 7; datetime.datetime 2025 6 18;
        datetime.datetime 2025 7 30; datetime.datetime 2025 9 17;
        datetime.datetime 2025 11 5; datetime.datetime 2025 12 17;
        datetime.datetime 2026 1 27; datetime.datetime 2026 3 17 ]);
    ("quad_witching",
      [ datetime.datetime 2025 3 21; datetime.datetime 2025 6 20;
        datetime.datetime 2025 9 19; datetime.datetime 2025 12 19;
        datetime.datetime 2026 3 20 ]) ].

Definition SECTORES : list (string * list string) :=
  [ ("Indices", ["SPY"; "QQQ"; "IWM"; "DIA"]);
    ("Tecnologicas", ["AAPL"; "MSFT"; "GOOGL"; "AMZN"; "NVDA"; "TSLA"]);
    ("Energia", ["XOM"; "CVX"; "COP"; "SLB"; "EOG"; "MPC"]);
    ("Financieras", ["JPM"; "BAC"; "WFC"; "GS"; "MS"]);
    ("Salud", ["JNJ"; "PFE"; "UNH"; "MRK"; "ABT"]) ].

Fixpoint get_símbolo_sector_en (sectores : list (string * list string))
    (símbolo : string) : string :=
  match sectores with
  | [] => "Unknown"
  | (sector, símbolos) :: resto =>
      if bool_decide (símbolo ∈ símbolos) then sector
      else get_símbolo_sector_en resto símbolo
  end.

Definition get_símbolo_sector (símbolo : string) : string :=
  get_símbolo_sector_en SECTORES símbolo.

End Config.

(** ** analyzers/base_analyzer.py *)
Module BaseAnalyzer.

(** [df is None or df.empty] decides; [None] is the absent snapshot. *)
Definition _validar_datos (df : option DataFrame) (requerido : bool) : bool :=
  match df with
  | None => negb requerido
  | Some d => if empty d then negb requerido else true
  end.

Definition _obtener_sector (symbol : string) : string :=
  Config.get_símbolo_sector symbol.

End BaseAnalyzer.

(** An alert is a dict: 'tipo', 'prioridad', 'valor', 'mensaje' or
    'descripción', 'umbral', ... *)
Abbreviation Alerta := (gmap string Valor).

(** ** analyzers/volume_analyzer.py *)
Module VolumeAnalyzer.

Definition vol_total (df : DataFrame) : N :=
  pd.sum (volume <$> filas df).

Definition vol_calls (df : DataFrame) : N :=
  pd.sum (volume <$> filter (λ c, tipo c = CALL) (filas df)).

Definition vol_puts (df : DataFrame) : N :=
  pd.sum (volume <$> filter (λ c, tipo c = PUT) (filas df)).

Definition vol_put_call_ratio (df : DataFrame) : Qc :=
  if (0 <? vol_calls df)%N then N2Qc (vol_puts df) / N2Qc (vol_calls df) else 0.

Definition vol_itm (df : DataFrame) : N :=
  pd.sum (volume <$> filter (λ c, itm_otm c = ITM) (filas df)).

Definition vol_otm (df : DataFrame) : N :=
  pd.sum (volume <$> filter (λ c, itm_otm c = OTM) (filas df)).

Definition itm_otm_ratio (df : DataFrame) : Qc :=
  if (0 <? vol_otm df)%N then N2Qc (vol_itm df) / N2Qc (vol_otm df) else 0.

(** The column 'vol_oi_individual'. *)
Definition vol_oi_individual (df : DataFrame) : list Qc :=
  np.where_ (λ c, 0 <? openInterest c)%N
            (λ c, N2Qc (volume c) / N2Qc (openInterest c))
            (λ _, 0)
            (filas df).

Definition rotación_promedio (df : DataFrame) : Qc :=
  pd.mean (vol_oi_individual df).

Definition alta_rotación_count (df : DataFrame) : nat :=
  length (filter (λ x, 1 < x) (vol_oi_individual df)).

Definition q_percentil (df : DataFrame) : Qc :=
  pd.quantile (Config.PERCENTIL_VOLUMEN_ALTO / Q2Qc 100)
              ((λ c, N2Qc (volume c)) <$> filas df).

Definition contratos_alta (df : DataFrame) : list Contract :=
  filter (λ c, q_percentil df < N2Qc (volume c)) (filas df).

(** One cell of the column 'peso_distancia'. *)
Definition peso_distancia (c : Contract) : Qc :=
  1 / (Qcabs (moneyness c - 1) + Q2Qc (1 # 100)).

Definition vol_calls_pond (df : DataFrame) : Qc :=
  pd.sumQ ((λ c, N2Qc (volume c) * peso_distancia c)
             <$> filter (λ c, tipo c = CALL) (filas df)).

Definition vol_puts_pond (df : DataFrame) : Qc :=
  pd.sumQ ((λ c, N2Qc (volume c) * peso_distancia c)
             <$> filter (λ c, tipo c = PUT) (filas df)).

Definition vol_put_call_ponderado (df : DataFrame) : Qc :=
  if Qc_gtb (vol_calls_pond df) 0 then vol_puts_pond df / vol_calls_pond df else 0.

(** [analyze(options_data)]: the dict of metrics, and the state in which the
    call leaves [options_data] (it assigns two columns into it). *)
Definition analyze (options_data : option DataFrame)
    : gmap string Qc * option DataFrame :=
  if negb (BaseAnalyzer._validar_datos options_data true) then (∅, options_data)
  else match options_data with
  | None => (∅, options_data)
  | Some df =>
    let analysis : gmap string Qc := ∅ in
    let analysis := <["vol_total" := N2Qc (vol_total df)]> analysis in
    let analysis := <["vol_calls" := N2Qc (vol_calls df)]> analysis in
    let analysis := <["vol_puts" := N2Qc (vol_puts df)]> analysis in
    let analysis := <["vol_put_call_ratio" := vol_put_call_ratio df]> analysis in
    let analysis :=
      if in_columns "itm_otm" df then
        <["itm_otm_ratio" := itm_otm_ratio df]>
          (<["vol_otm" := N2Qc (vol_otm df)]>
            (<["vol_itm" := N2Qc (vol_itm df)]> analysis))
      else analysis in
    let df := setitem df "vol_oi_individual" (VNum <$> vol_oi_individual df) in
    let analysis := <["rotación_promedio" := rotación_promedio df]> analysis in
    let analysis := <["alta_rotación_count" := nat2Qc (alta_rotación_count df)]> analysis in
    let analysis :=
      <["contratos_alta_actividad" := nat2Qc (length (contratos_alta df))]> analysis in
    let analysis :=
      <["vol_alta_actividad" := N2Qc (pd.sum (volume <$> contratos_alta df))]> analysis in
    if in_columns "moneyness" df then
      let df := setitem df "peso_distancia" (VNum ∘ peso_distancia <$> filas df) in
      let analysis :=
        <["vol_put_call_ponderado" := vol_put_call_ponderado df]> analysis in
      (analysis, Some df)
    else (analysis, Some df)
  end.

(** [get_alerts(analysis_results)].  The alert reads
    [analysis_results[k]] only after [analysis_results.get(k, 0)] exceeded a
    positive threshold, that is when the key is present. *)
Definition get_alerts (analysis_results : gmap string Qc) : list Alerta :=
  let alerts : list Alerta := [] in
  let alerts :=
    if Qc_gtb (get0 analysis_results "vol_put_call_ratio") Config.UMBRAL_PCR_DEFENSIVO
    then alerts ++ [ {[ "tipo" := VStr "VOLUMEN_PUTS_EXTREMO";
                        "prioridad" := VStr "ALTA";
                        "valor" := VNum (get0 analysis_results "vol_put_call_ratio");
                        "mensaje" := VStr ("Volumen PUT/CALL = " +:+
                                           fmt_f 2 (get0 analysis_results "vol_put_call_ratio")) ]} ]
    else alerts in
  let alerts :=
    if Qc_gtb (get0 analysis_results "rotación_promedio") Config.UMBRAL_ROTACION
    then alerts ++ [ {[ "tipo" := VStr "ALTA_ROTACION";
                        "prioridad" := VStr "MEDIA";
                        "valor" := VNum (get0 analysis_results "rotación_promedio");
                        "mensaje" := VStr ("Rotación Alta: " +:+
                                           fmt_pct 1 (get0 analysis_results "rotación_promedio")) ]} ]
    else alerts in
  let alerts :=
    if Qc_gtb (get0 analysis_results "contratos_alta_actividad") (Q2Qc 5)
    then alerts ++ [ {[ "tipo" := VStr "CONCENTRACION_VOLUMEN";
                        "prioridad" := VStr "MEDIA";
                        "valor" := VNum (get0 analysis_results "contratos_alta_actividad");
                        "mensaje" := VStr ("Volumen en " +:+
                                           fmt_int (Qfloor (get0 analysis_results "contratos_alta_actividad"))
                                           +:+ " contratos") ]} ]
    else alerts in
  alerts.

End VolumeAnalyzer.

(** ** analyzers/open_interest_analyzer.py *)
Module OpenInterestAnalyzer.

Definition oi_total (df : DataFrame) : N :=
  pd.sum (openInterest <$> filas df).

Definition oi_calls (df : DataFrame) : N :=
  pd.sum (openInterest <$> filter (λ c, tipo c = CALL) (filas df)).

Definition oi_puts (df : DataFrame) : N :=
  pd.sum (openInterest <$> filter (λ c, tipo c = PUT) (filas df)).

Definition oi_put_call_ratio (df : DataFrame) : Qc :=
  if (0 <? oi_calls df)%N then N2Qc (oi_puts df) / N2Qc (oi_calls df) else 0.

Definition top_5_oi (df : DataFrame) : N :=
  pd.sum (openInterest <$> pd.nlargest 5 openInterest (filas df)).

Definition oi_concentration (df : DataFrame) : Qc :=
  let total_oi := pd.sum (openInterest <$> filas df) in
  if (0 <? total_oi)%N then N2Qc (top_5_oi df) / N2Qc total_oi * Q2Qc 100 else 0.

Definition oi_itm (df : DataFrame) : N :=
  pd.sum (openInterest <$> filter (λ c, itm_otm c = ITM) (filas df)).

Definition oi_otm (df : DataFrame) : N :=
  pd.sum (openInterest <$> filter (λ c, itm_otm c = OTM) (filas df)).

Definition oi_itm_otm_ratio (df : DataFrame) : Qc :=
  if (0 <? oi_otm df)%N then N2Qc (oi_itm df) / N2Qc (oi_otm df) else 0.

Definition oi_por_exp (df : DataFrame) : list (string * N) :=
  pd.groupby_sum String.leb expiration openInterest (filas df).

(** [groupby('strike')['openInterest'].sum().sort_values(ascending=False)].
    Among strikes of equal open interest the order is the one pandas' sort
    leaves; here it is the order of the strikes. *)
Definition oi_por_strike (df : DataFrame) : list (Qc * N) :=
  sort_by (λ a b, b.2 <=? a.2)%N
    (pd.groupby_sum (λ x y, bool_decide (x ≤ y)) strike openInterest (filas df)).

(** [analyze(options_data)].  A frame that passes the validation has a row,
    hence a strike: 'top_strike_oi' is never [None]. *)
Definition analyze (options_data : option DataFrame) : gmap string Qc :=
  if negb (BaseAnalyzer._validar_datos options_data true) then ∅
  else match options_data with
  | None => ∅
  | Some df =>
    let analysis : gmap string Qc := ∅ in
    let analysis := <["oi_total" := N2Qc (oi_total df)]> analysis in
    let analysis := <["oi_calls" := N2Qc (oi_calls df)]> analysis in
    let analysis := <["oi_puts" := N2Qc (oi_puts df)]> analysis in
    let analysis := <["oi_put_call_ratio" := oi_put_call_ratio df]> analysis in
    let analysis := <["oi_concentration" := oi_concentration df]> analysis in
    let analysis :=
      if in_columns "itm_otm" df then
        <["oi_itm_otm_ratio" := oi_itm_otm_ratio df]>
          (<["oi_otm" := N2Qc (oi_otm df)]>
            (<["oi_itm" := N2Qc (oi_itm df)]> analysis))
      else analysis in
    let analysis :=
      if in_columns "expiration" df then
        <["oi_vencimiento_lejano" := N2Qc (default 0%N (snd <$> last (oi_por_exp df)))]>
          (<["oi_vencimiento_cercano" := N2Qc (default 0%N (snd <$> head (oi_por_exp df)))]>
            analysis)
      else analysis in
    let analysis :=
      match head (oi_por_strike df) with
      | Some (k, _) => <["top_strike_oi" := k]> analysis
      | None => analysis
      end in
    let analysis :=
      <["top_strike_oi_value" := N2Qc (default 0%N (snd <$> head (oi_por_strike df)))]>
        analysis in
    analysis
  end.

Definition get_alerts (analysis_results : gmap string Qc) : list Alerta :=
  let alerts : list Alerta := [] in
  let alerts :=
    if Qc_gtb (get0 analysis_results "oi_put_call_ratio") (Q2Qc (13 # 10))
    then alerts ++ [ {[ "tipo" := VStr "OI_PUTS_EXTREMO";
                        "prioridad" := VStr "ALTA";
                        "valor" := VNum (get0 analysis_results "oi_put_call_ratio");
                        "mensaje" := VStr ("OI PUT/CALL = " +:+
                                           fmt_f 2 (get0 analysis_results "oi_put_call_ratio")
                                           +:+ " (Posición defensiva acumulada)") ]} ]
    else alerts in
  let alerts :=
    if Qc_gtb (get0 analysis_results "oi_concentration") (Q2Qc 40)
    then alerts ++ [ {[ "tipo" := VStr "OI_CONCENTRADO";
                        "prioridad" := VStr "MEDIA";
                        "valor" := VNum (get0 analysis_results "oi_concentration");
                        "mensaje" := VStr ("OI concentrado: " +:+
                                           fmt_f 1 (get0 analysis_results "oi_concentration")
                                           +:+ "% en top 5 strikes") ]} ]
    else alerts in
  let oi_ratio := get0 analysis_results "oi_itm_otm_ratio" in
  let alerts :=
    if Qc_gtb oi_ratio (Q2Qc (15 # 10))
       || (Qc_gtb oi_ratio 0 && Qc_gtb (Q2Qc (3 # 10)) oi_ratio)
    then alerts ++ [ {[ "tipo" := VStr "OI_ITM_OTM_ANOMALO";
                        "prioridad" := VStr "MEDIA";
                        "valor" := VNum oi_ratio;
                        "mensaje" := VStr ("OI ITM/OTM anómalo: " +:+ fmt_f 2 oi_ratio) ]} ]
    else alerts in
  alerts.

(** *** The concentration as the specification words it

    The open interest is first summed per strike, over CALL and PUT; the
    five strikes with the highest aggregate are taken. *)
Definition oi_concentration_por_strike (df : DataFrame) : Qc :=
  let por_strike := pd.agrupar strike openInterest (filas df) in
  let top_5 := pd.sum (snd <$> pd.nlargest 5 snd por_strike) in
  let total_oi := pd.sum (openInterest <$> filas df) in
  if (0 <? total_oi)%N then N2Qc top_5 / N2Qc total_oi * Q2Qc 100 else 0.

End OpenInterestAnalyzer.

(** An event dict.  The analyzer's events carry 'símbolo', 'días_restantes'
    and 'sector' (and, after the analysis, 'volumen_análisis'); the helper's
    events carry 'dias_restantes', spelled without the accent. *)
Record Evento := {
  ev_símbolo : option string;
  ev_tipo : string;
  ev_fecha : Z;
  ev_días_restantes : option Z;
  ev_dias_restantes : option Z;
  ev_sector : option string;
  ev_volumen_análisis : option (gmap string Qc);
}.

(** [d[k] = v] on a dict in insertion order: a present key keeps its place. *)
Fixpoint dict_set {V} (d : list (string * V)) (k : string) (v : V) : list (string * V) :=
  match d with
  | [] => [(k, v)]
  | (k', v') :: d' => if decide (k' = k) then (k, v) :: d' else (k', v') :: dict_set d' k v
  end.

(** The nested comprehension over the calendar: the dates of each category
    that satisfy [en_ventana], in calendar order, built by [mk]. *)
Definition eventos_en_ventana {E} (calendario : list (string * list Z))
    (en_ventana : Z → bool) (mk : string → Z → E) : list E :=
  flat_map (λ '(tipo_evento, fechas),
              mk tipo_evento <$> filter (λ fecha, en_ventana fecha = true) fechas)
           calendario.

(** ** utils/helpers.py *)
Module helpers.

(** [detectar_eventos_proximos(eventos_calendario, dias_adelante)] at the
    time [now]; [None] when computing the limit date overflows. *)
Definition detectar_eventos_proximos (now : Z) (eventos_calendario : list (string * list Z))
    (dias_adelante : Z) : option (list Evento) :=
  let fecha_actual := now in
  delta ← datetime.timedelta dias_adelante;
  fecha_limite ← datetime.add fecha_actual delta;
  Some (eventos_en_ventana eventos_calendario
          (λ fecha, (fecha_actual <=? fecha)%Z && (fecha <=? fecha_limite)%Z)
          (λ tipo_evento fecha,
             {| ev_símbolo := None; ev_tipo := tipo_evento; ev_fecha := fecha;
                ev_días_restantes := None;
                ev_dias_restantes := Some (datetime.days_between fecha fecha_actual);
                ev_sector := None; ev_volumen_análisis := None |})).

Definition orden_prioridad : gmap string nat :=
  {[ "ALTA" := 1%nat; "MEDIA" := 2%nat; "BAJA" := 3%nat ]}.

(** The sort key [orden_prioridad.get(x.get('prioridad', 'BAJA'), 999)]. *)
Definition clave_prioridad (x : Alerta) : nat :=
  match default (VStr "BAJA") (x !! "prioridad") with
  | VStr p => default 999%nat (orden_prioridad !! p)
  | VNum _ => 999%nat
  end.

Definition ordenar_alertas_por_prioridad (alertas : list Alerta) : list Alerta :=
  sorted clave_prioridad alertas.

(** [filtrar_simbolos_con_eventos]: the symbols of a known sector, when
    some event is upcoming. *)
Definition sector_de (sectores : list (string * list string)) (simbolo : string)
    : option string :=
  fst <$> head (filter (λ s, simbolo ∈ s.2) sectores).

Definition filtrar_simbolos_con_eventos (now : Z) (simbolos : list string)
    (eventos_calendario : list (string * list Z))
    (sectores : list (string * list string)) (dias_adelante : Z)
    : option (list (string * string)) :=
  eventos_proximos ← detectar_eventos_proximos now eventos_calendario dias_adelante;
  Some (foldl (λ simbolos_con_eventos simbolo,
                 match sector_de sectores simbolo with
                 | Some sector =>
                     if bool_decide (sector ≠ "") && bool_decide (eventos_proximos ≠ [])
                     then dict_set simbolos_con_eventos simbolo sector
                     else simbolos_con_eventos
                 | None => simbolos_con_eventos
                 end) [] simbolos).

End helpers.

(** ** analyzers/events_analyzer.py *)

(** The dict [EventsAnalyzer.analyze] returns; a field is [None] when the
    key is absent from the dict handed to [get_alerts]. *)
Record AnálisisResultado := {
  eventos : option (list Evento);
  métricas_pre_evento : option (list (string * gmap string Qc));
  concentración_vencimientos : option (list (Valor * N));
  cantidad_eventos : option nat;
}.

(** The empty dict [{}]. *)
Definition dict_vacío (r : AnálisisResultado) : bool :=
  match eventos r, métricas_pre_evento r, concentración_vencimientos r, cantidad_eventos r with
  | None, None, None, None => true
  | _, _, _, _ => false
  end.

Module EventsAnalyzer.

(** [detectar_eventos_próximos(símbolo, días_adelante)] over the calendar
    [calendario] at the time [now]; [None] when computing the limit date
    overflows. *)
Definition detectar_eventos_próximos_en (calendario : list (string * list Z))
    (now : Z) (símbolo : string) (días_adelante : Z) : option (list Evento) :=
  let fecha_actual := now in
  delta ← datetime.timedelta días_adelante;
  fecha_límite ← datetime.add fecha_actual delta;
  Some (eventos_en_ventana calendario
          (λ fecha, (fecha_actual <=? fecha)%Z && (fecha <=? fecha_límite)%Z)
          (λ tipo_evento fecha,
             {| ev_símbolo := Some símbolo; ev_tipo := tipo_evento; ev_fecha := fecha;
                ev_días_restantes := Some (datetime.days_between fecha fecha_actual);
                ev_dias_restantes := None;
                ev_sector := Some (BaseAnalyzer._obtener_sector símbolo);
                ev_volumen_análisis := None |})).

Definition detectar_eventos_próximos (now : Z) (símbolo : string) (días_adelante : Z)
    : option (list Evento) :=
  detectar_eventos_próximos_en Config.EVENTOS_CALENDARIO now símbolo días_adelante.

Definition vol_donde (P : Contract → bool) (df : DataFrame) : N :=
  pd.sum (volume <$> filter (λ c, P c = true) (filas df)).

(** [analizar_volumen_pre_evento(opciones_data, evento)]; [None] is the
    KeyError of a frame without the column 'moneyness'. *)
Definition analizar_volumen_pre_evento (opciones_data : DataFrame) (evento : Evento)
    : option (gmap string Qc) :=
  if empty opciones_data then Some ∅
  else
    let total_calls := vol_donde (λ c, bool_decide (tipo c = CALL)) opciones_data in
    let total_puts := vol_donde (λ c, bool_decide (tipo c = PUT)) opciones_data in
    let pcr_ratio :=
      if (0 <? total_calls)%N then N2Qc total_puts / N2Qc total_calls else 0 in
    if negb (in_columns "moneyness" opciones_data) then None
    else
      let itm_calls :=
        vol_donde (λ c, bool_decide (tipo c = CALL) && Qc_gtb (moneyness c) 1) opciones_data in
      let otm_calls :=
        vol_donde (λ c, bool_decide (tipo c = CALL) && bool_decide (moneyness c ≤ 1)) opciones_data in
      let itm_puts :=
        vol_donde (λ c, bool_decide (tipo c = PUT) && Qc_gtb 1 (moneyness c)) opciones_data in
      let otm_puts :=
        vol_donde (λ c, bool_decide (tipo c = PUT) && bool_decide (1 ≤ moneyness c)) opciones_data in
      Some {[ "pcr_ratio" := pcr_ratio;
              "itm_calls" := N2Qc itm_calls;
              "otm_calls" := N2Qc otm_calls;
              "itm_puts" := N2Qc itm_puts;
              "otm_puts" := N2Qc otm_puts;
              "total_volumen" := N2Qc (pd.sum (volume <$> filas opciones_data)) ]}.

(** [pd.DataFrame()] *)
Definition DataFrame_vacío : DataFrame :=
  {| filas := []; columns := ∅; extra := ∅ |}.

(** The loop of [analyze] over the events: each event dict receives the key
    'volumen_análisis', and the metrics are filed under the event's
    category.  [None] is an exception: the AttributeError of an absent
    table, or the KeyError of [analizar_volumen_pre_evento]. *)
Fixpoint analizar_eventos (opciones_data : option DataFrame) (eventos_próximos : list Evento)
    (métricas_pre_evento : list (string * gmap string Qc))
    : option (list Evento * list (string * gmap string Qc)) :=
  match eventos_próximos with
  | [] => Some ([], métricas_pre_evento)
  | evento :: resto =>
      df ← opciones_data;
      métricas ← analizar_volumen_pre_evento df evento;
      let evento' :=
        {| ev_símbolo := ev_símbolo evento; ev_tipo := ev_tipo evento;
           ev_fecha := ev_fecha evento;
           ev_días_restantes := ev_días_restantes evento;
           ev_dias_restantes := ev_dias_restantes evento;
           ev_sector := ev_sector evento;
           ev_volumen_análisis := Some métricas |} in
      '(resto', métricas_pre_evento') ←
        analizar_eventos opciones_data resto
          (dict_set métricas_pre_evento (ev_tipo evento) métricas);
      Some (evento' :: resto', métricas_pre_evento')
  end.

(** [analyze(símbolo, opciones_data)] at the time [now].  [data_manager]
    tells whether the analyzer has one; its call passes a keyword that
    [obtener_datos_opciones] does not take, and the TypeError is caught: the
    table becomes the empty one.  [None] is an exception that leaves
    [analyze]. *)
Definition analyze (data_manager : bool) (now : Z) (símbolo : string)
    (opciones_data : option DataFrame) : option AnálisisResultado :=
  let opciones_data :=
    if negb (BaseAnalyzer._validar_datos opciones_data false) then
      if data_manager then Some DataFrame_vacío else opciones_data
    else opciones_data in
  eventos_próximos ← detectar_eventos_próximos now símbolo 90;
  '(eventos_próximos, métricas_pre_evento) ←
    analizar_eventos opciones_data eventos_próximos [];
  df ← opciones_data;
  let concentración_vencimientos :=
    if negb (empty df) && in_columns "vencimiento" df
    then pd.value_counts (default [] (extra df !! "vencimiento"))
    else [] in
  Some {| eventos := Some eventos_próximos;
          métricas_pre_evento := Some métricas_pre_evento;
          concentración_vencimientos := Some concentración_vencimientos;
          cantidad_eventos := Some (length eventos_próximos) |}.

(** The alert of a category whose pre-event put/call ratio is [pcr]. *)
Definition alerta_defensiva (tipo_evento : string) (pcr : Qc) : Alerta :=
  {[ "tipo" := VStr "VOLUMEN_DEFENSIVO_PRE_EVENTO";
     "prioridad" := VStr "MEDIA";
     "descripción" := VStr ("Put/Call ratio elevado (" +:+ fmt_f 2 pcr
                            +:+ ") antes de " +:+ tipo_evento);
     "valor" := VNum pcr;
     "umbral" := VNum (Q2Qc (15 # 10)) ]}.

Definition alerta_ofensiva (tipo_evento : string) (pcr : Qc) : Alerta :=
  {[ "tipo" := VStr "VOLUMEN_OFENSIVO_PRE_EVENTO";
     "prioridad" := VStr "MEDIA";
     "descripción" := VStr ("Put/Call ratio bajo (" +:+ fmt_f 2 pcr
                            +:+ ") antes de " +:+ tipo_evento);
     "valor" := VNum pcr;
     "umbral" := VNum (Q2Qc (7 # 10)) ]}.

(** The body of the loop over [métricas_pre_evento.items()]. *)
Definition alertas_pre_evento (alertas : list Alerta)
    (item : string * gmap string Qc) : list Alerta :=
  let '(tipo_evento, métricas) := item in
  let pcr := get0 métricas "pcr_ratio" in
  if Qc_gtb pcr (Q2Qc (15 # 10)) then alertas ++ [alerta_defensiva tipo_evento pcr]
  else if Qc_gtb pcr 0 && Qc_gtb (Q2Qc (7 # 10)) pcr
  then alertas ++ [alerta_ofensiva tipo_evento pcr]
  else alertas.

(** [get_alerts(símbolo, análisis_resultado)]; the argument [None] is
    Python's [None]. *)
Definition get_alerts (símbolo : string) (análisis_resultado : option AnálisisResultado)
    : list Alerta :=
  let alertas : list Alerta := [] in
  match análisis_resultado with
  | None => alertas
  | Some r =>
    if dict_vacío r then alertas
    else
      let eventos := default [] (eventos r) in
      let eventos_inminentes :=
        filter (λ e, (default 999 (ev_días_restantes e) < 7)%Z) eventos in
      let alertas :=
        match eventos_inminentes with
        | [] => alertas
        | _ :: _ =>
            alertas ++
            [ {[ "tipo" := VStr "EVENTO_INMINENTE";
                 "prioridad" := VStr "ALTA";
                 "descripción" :=
                   VStr ("Evento inminente en "
                         +:+ fmt_int (Z.of_nat (length eventos_inminentes))
                         +:+ " día(s): "
                         +:+ String.concat ", " (ev_tipo <$> eventos_inminentes));
                 "valor" := VNum (nat2Qc (length eventos_inminentes)) ]} ]
        end in
      let alertas :=
        match eventos, métricas_pre_evento r with
        | _ :: _, Some métricas_pre_evento =>
            foldl alertas_pre_evento alertas métricas_pre_evento
        | _, _ => alertas
        end in
      let alertas :=
        if (3 <? length eventos)%nat then
          alertas ++
          [ {[ "tipo" := VStr "MÚLTIPLES_EVENTOS";
               "prioridad" := VStr "MEDIA";
               "descripción" :=
                 VStr ("Múltiples eventos próximos: "
                       +:+ fmt_int (Z.of_nat (length eventos))
                       +:+ " eventos en próximos 90 días");
               "valor" := VNum (nat2Qc (length eventos)) ]} ]
        else alertas in
      alertas
  end.

End EventsAnalyzer.

(** ** reporting/report_generator.py *)
Module ReportGenerator.

(** What an analyzer contributed for a symbol; [alerts] is [None] when the
    dict has no key 'alerts'. *)
Record Resultado := {
  alerts : option (list Alerta);
}.

(** [{'símbolo': símbolo, 'analizador': analyzer_name, **alerta}]: the keys
    of [alerta] win. *)
Definition alerta_completa (símbolo analyzer_name : string) (alerta : Alerta) : Alerta :=
  alerta ∪ {[ "símbolo" := VStr símbolo; "analizador" := VStr analyzer_name ]}.

Definition alertas_consolidadas
    (análisis_resultados : list (string * list (string * Resultado))) : list Alerta :=
  flat_map (λ '(símbolo, resultados_símbolo),
    flat_map (λ '(analyzer_name, resultado),
      match alerts resultado with
      | Some als => alerta_completa símbolo analyzer_name <$> als
      | None => []
      end) resultados_símbolo) análisis_resultados.

Definition consolidar_alertas
    (análisis_resultados : list (string * list (string * Resultado))) : list Alerta :=
  helpers.ordenar_alertas_por_prioridad (alertas_consolidadas análisis_resultados).

End ReportGenerator.

(** ** Example snapshots *)

(** The snapshot of the examples: contracts on SPY at an underlying price of
    100, with the columns the data manager builds. *)
Definition contrato (k : Z) (t : Tipo) (v oi : N) : Contract :=
  {| symbol := "SPY"; expiration := "2025-01-17"; strike := Qc_of_Z k; tipo := t;
     volume := v; openInterest := oi; precio_subyacente := Q2Qc 100;
     días_vencimiento := 30;
     moneyness := Qc_of_Z k / Q2Qc 100;
     itm_otm := clasificar t (Qc_of_Z k / Q2Qc 100) |}.

Definition snapshot (cs : list Contract) : DataFrame :=
  {| filas := cs; columns := columnas_moneyness; extra := ∅ |}.


(** ** Quantities of the specification

    The rotation of one contract: volume over open interest when the open
    interest is positive, and 0 otherwise. *)
Definition rotación_contrato (c : Contract) : Qc :=
  if (0 <? openInterest c)%N then N2Qc (volume c) / N2Qc (openInterest c) else 0.

(** The weight of a contract at moneyness [m]. *)
Definition peso (m : Qc) : Qc := 1 / (Qcabs (m - 1) + Q2Qc (1 # 100)).

(** The weighted volume of the contracts of one type. *)
Definition volumen_ponderado (t : Tipo) (cs : list Contract) : Qc :=
  pd.sumQ ((λ c, N2Qc (volume c) * peso (moneyness c)) <$> filter (λ c, tipo c = t) cs).

(** The pre-event defensive alerts among the alerts. *)
Abbreviation es_defensiva :=
  (λ a : Alerta, a !! "tipo" = Some (VStr "VOLUMEN_DEFENSIVO_PRE_EVENTO")).

(** All the open interest at one strike: five CALL and five PUT contracts at
    strike 100, 10 units each, 100 in total. *)
Definition snapshot_un_strike : DataFrame :=
  snapshot (replicate 5 (contrato 100 CALL 0 10) ++ replicate 5 (contrato 100 PUT 0 10)).

(** The open interest spread evenly over the 20 strikes 90 .. 109, 5 units
    each, 100 in total: one contract per strike, and a CALL of 2 units with a
    PUT of 3 units per strike. *)
Definition snapshot_20_strikes : DataFrame :=
  snapshot ((λ k, contrato (Z.of_nat k) CALL 0 5) <$> seq 90 20).

Definition snapshot_20_strikes_call_put : DataFrame :=
  snapshot (flat_map (λ k, [contrato (Z.of_nat k) CALL 0 2; contrato (Z.of_nat k) PUT 0 3])
                     (seq 90 20)).

(** ** config.py: all the symbols *)

(** [Config.get_todos_símbolos()] over a table of sectors. *)
Definition get_todos_símbolos_en (sectores : list (string * list string)) : list string :=
  flat_map snd sectores.

Definition get_todos_símbolos : list string :=
  get_todos_símbolos_en Config.SECTORES.

(** ** data/data_manager.py: the caches

    The data source is outside the program: what the ticker answers is an
    argument, [None] standing for an access that raises. *)
Module DataManager.

Record Ticker := {
  info : option (gmap string Qc);
  options : option (list string);
}.

(** The three caches of a [DataManager]: tables by key
    [f"{symbol}_{num_vencimientos}"], prices and expiration lists by symbol,
    the last two with the time they were stored at. *)
Record Estado := {
  opciones_cache : gmap string DataFrame;
  precios_cache : gmap string (Qc * Z);
  vencimientos_cache : gmap string (list string * Z);
}.

(** [DataManager()] *)
Definition inicial : Estado :=
  {| opciones_cache := ∅; precios_cache := ∅; vencimientos_cache := ∅ |}.

(** [(now - timestamp).total_seconds() < s] *)
Definition reciente (now timestamp s : Z) : bool :=
  (now - timestamp <? s * 1000000)%Z.

(** [_obtener_precio_cached(symbol, ticker)].  The clock reads [now] when
    the entry is checked and [now'] when a new price is stored. *)
Definition _obtener_precio_cached (st : Estado) (now now' : Z) (symbol : string)
    (ticker : Ticker) : Qc * Estado :=
  let fresco :=
    match precios_cache st !! symbol with
    | Some (precio, timestamp) =>
        if reciente now timestamp 300 then Some precio else None
    | None => None
    end in
  match fresco with
  | Some precio => (precio, st)
  | None =>
      match info ticker with
      | Some info =>
          let precio :=
            default (default 0 (info !! "regularMarketPrice")) (info !! "currentPrice") in
          (precio,
           {| opciones_cache := opciones_cache st;
              precios_cache := <[symbol := (precio, now')]> (precios_cache st);
              vencimientos_cache := vencimientos_cache st |})
      | None => (0, st)
      end
  end.

(** [_obtener_vencimientos_cached(symbol, ticker)] *)
Definition _obtener_vencimientos_cached (st : Estado) (now now' : Z) (symbol : string)
    (ticker : Ticker) : list string * Estado :=
  let fresco :=
    match vencimientos_cache st !! symbol with
    | Some (exp_dates, timestamp) =>
        if reciente now timestamp 600 then Some exp_dates else None
    | None => None
    end in
  match fresco with
  | Some exp_dates => (exp_dates, st)
  | None =>
      match options ticker with
      | Some ((_ :: _) as exp_dates) =>
          (exp_dates,
           {| opciones_cache := opciones_cache st;
              precios_cache := precios_cache st;
              vencimientos_cache := <[symbol := (exp_dates, now')]> (vencimientos_cache st) |})
      | Some [] => ([], st)
      | None => ([], st)
      end
  end.

(** [obtener_precio_actual(symbol)]: the price, or [None] when it is not
    positive. *)
Definition obtener_precio_actual (st : Estado) (now now' : Z) (symbol : string)
    (ticker : Ticker) : option Qc * Estado :=
  let '(precio, st') := _obtener_precio_cached st now now' symbol ticker in
  (if Qc_gtb precio 0 then Some precio else None, st').

(** [limpiar_cache(symbol)]; [None] and the empty string clear everything. *)
Definition limpiar_cache (st : Estado) (symbol : option string) : Estado :=
  match symbol with
  | Some (String _ _ as symbol) =>
      {| opciones_cache :=
           filter (λ kv, ¬ String.prefix symbol kv.1 = true) (opciones_cache st);
         precios_cache := delete symbol (precios_cache st);
         vencimientos_cache := delete symbol (vencimientos_cache st) |}
  | _ => inicial
  end.

(** The key of a table in [opciones_cache]. *)
Definition cache_key (symbol : string) (num_vencimientos : Z) : string :=
  symbol +:+ "_" +:+ fmt_int num_vencimientos.

End DataManager.

(** ** main.py: the analysis of one symbol *)
Module AnalisisInstPosiciones.

(** The value under 'metrics': the dict of the volume or of the
    open-interest analyzer, or the result of the events analyzer. *)
Inductive Métricas :=
  | MétricasVolumen (m : gmap string Qc)
  | MétricasOI (m : gmap string Qc)
  | MétricasEventos (r : AnálisisResultado).

(** What an analyzer contributed: 'metrics', 'alerts' and, for the events
    analyzer, 'eventos'. *)
Record ResultadoAnalizador := {
  r_metrics : Métricas;
  r_alerts : list Alerta;
  r_eventos : option (list Evento);
}.

(** [ejecutar_análisis_símbolo(símbolo)] at the time [now], where
    [opciones_data] is what the data manager returned.  The three analyzers
    receive the same table, the events analyzer after the volume analyzer has
    written into it; an exception of the events analyzer is caught, and the
    results gathered so far are returned. *)
Definition ejecutar_análisis_símbolo (now : Z) (símbolo : string)
    (opciones_data : option DataFrame) : list (string * ResultadoAnalizador) :=
  let resultados : list (string * ResultadoAnalizador) := [] in
  match opciones_data with
  | None => resultados
  | Some df =>
    if empty df then resultados
    else
      let '(vol_result, opciones_data) := VolumeAnalyzer.analyze (Some df) in
      let vol_alerts := VolumeAnalyzer.get_alerts vol_result in
      let resultados :=
        dict_set resultados "volume_analyzer"
          {| r_metrics := MétricasVolumen vol_result; r_alerts := vol_alerts;
             r_eventos := None |} in
      let oi_result := OpenInterestAnalyzer.analyze opciones_data in
      let oi_alerts := OpenInterestAnalyzer.get_alerts oi_result in
      let resultados :=
        dict_set resultados "open_interest_analyzer"
          {| r_metrics := MétricasOI oi_result; r_alerts := oi_alerts;
             r_eventos := None |} in
      match EventsAnalyzer.analyze true now símbolo opciones_data with
      | None => resultados
      | Some events_result =>
          let events_alerts := EventsAnalyzer.get_alerts símbolo (Some events_result) in
          dict_set resultados "events_analyzer"
            {| r_metrics := MétricasEventos events_result; r_alerts := events_alerts;
               r_eventos := Some (default [] (eventos events_result)) |}
      end
  end.

End AnalisisInstPosiciones.

(** * Properties *)

(** ** Numbers *)

Lemma N2Qc_0 : N2Qc 0 = 0.
Proof. apply Qc_is_canon. reflexivity. Qed.

Lemma nat2Qc_0 : nat2Qc 0 = 0.
Proof. apply Qc_is_canon. reflexivity. Qed.

Lemma Qc_of_Z_nonneg (z : Z) : (0 ≤ z)%Z → 0 ≤ Qc_of_Z z.
Proof.
  intros Hz. unfold Qcle. simpl. unfold Qle. simpl. lia.
Qed.

Lemma N2Qc_nonneg (n : N) : 0 ≤ N2Qc n.
Proof. apply Qc_of_Z_nonneg. lia. Qed.

Lemma Qc_gtb_true (x y : Qc) : Qc_gtb x y = true ↔ y < x.
Proof. unfold Qc_gtb. apply bool_decide_eq_true. Qed.

Lemma Qc_gtb_false (x y : Qc) : Qc_gtb x y = false ↔ x ≤ y.
Proof.
  unfold Qc_gtb. rewrite bool_decide_eq_false. symmetry. apply Qcle_ngt.
Qed.

Lemma Qc_zero_div (x : Qc) : 0 / x = 0.
Proof. unfold Qcdiv. apply Qcmult_0_l. Qed.

(** ** The validation of the snapshot *)

Lemma validar_sin_datos (options_data : option DataFrame) :
  (options_data = None ∨ ∃ df, options_data = Some df ∧ filas df = []) →
  BaseAnalyzer._validar_datos options_data true = false.
Proof.
  intros [-> | (df & -> & Hdf)]; [reflexivity |].
  unfold BaseAnalyzer._validar_datos, empty. rewrite Hdf. reflexivity.
Qed.

Lemma validar_con_datos (df : DataFrame) (requerido : bool) :
  filas df ≠ [] → BaseAnalyzer._validar_datos (Some df) requerido = true.
Proof.
  intros Hdf. unfold BaseAnalyzer._validar_datos, empty.
  destruct (filas df); [contradiction | reflexivity].
Qed.

(** C8: on an absent snapshot and on a snapshot without contracts, the
    volume engine and the open-interest engine both return the empty result
    (the volume engine leaving its argument as it was); no exception is
    involved: the validation tests [df is None] before it reads [df.empty]. *)
Theorem C8_no_data_gives_empty_result (options_data : option DataFrame) :
  (options_data = None ∨ ∃ df, options_data = Some df ∧ filas df = []) →
  VolumeAnalyzer.analyze options_data = (∅, options_data)
  ∧ OpenInterestAnalyzer.analyze options_data = ∅.
Proof.
  intros H. apply validar_sin_datos in H.
  unfold VolumeAnalyzer.analyze, OpenInterestAnalyzer.analyze.
  rewrite H. split; reflexivity.
Qed.

Lemma C8_no_data_gives_empty_result_witness :
  (VolumeAnalyzer.analyze None = (∅, None) ∧ OpenInterestAnalyzer.analyze None = ∅)
  ∧ (VolumeAnalyzer.analyze (Some (snapshot [])) = (∅, Some (snapshot []))
     ∧ OpenInterestAnalyzer.analyze (Some (snapshot [])) = ∅).
Proof.
  split.
  - apply (C8_no_data_gives_empty_result None). left. reflexivity.
  - apply (C8_no_data_gives_empty_result (Some (snapshot []))).
    right. exists (snapshot []). split; reflexivity.
Defined.

(** C10: on the empty metrics result each analyzer's alert generation
    returns the empty list; for the events analyzer both the empty dict and
    [None] count as absent.  The empty result is what the engines return on
    an absent snapshot. *)
Theorem C10_no_alerts_on_empty_result (símbolo : string) :
  VolumeAnalyzer.get_alerts ∅ = []
  ∧ OpenInterestAnalyzer.get_alerts ∅ = []
  ∧ EventsAnalyzer.get_alerts símbolo None = []
  ∧ EventsAnalyzer.get_alerts símbolo
      (Some {| eventos := None; métricas_pre_evento := None;
               concentración_vencimientos := None; cantidad_eventos := None |}) = []
  ∧ VolumeAnalyzer.get_alerts (VolumeAnalyzer.analyze None).1 = []
  ∧ OpenInterestAnalyzer.get_alerts (OpenInterestAnalyzer.analyze None) = [].
Proof.
  repeat split; reflexivity.
Qed.

(** ** The volume engine *)

(** Reads a key of the metrics that [VolumeAnalyzer.analyze] builds on a
    snapshot with contracts. *)
Ltac volumen_lookup Hdf :=
  unfold VolumeAnalyzer.analyze;
  rewrite (validar_con_datos _ true Hdf); cbn [negb];
  repeat case_match; cbn [fst];
  rewrite ?lookup_insert_ne by done; try apply lookup_insert_eq.

Lemma analyze_vol_calls (df : DataFrame) :
  filas df ≠ [] →
  (VolumeAnalyzer.analyze (Some df)).1 !! "vol_calls"
  = Some (N2Qc (VolumeAnalyzer.vol_calls df)).
Proof. intros Hdf. volumen_lookup Hdf. Qed.

Lemma analyze_vol_puts (df : DataFrame) :
  filas df ≠ [] →
  (VolumeAnalyzer.analyze (Some df)).1 !! "vol_puts"
  = Some (N2Qc (VolumeAnalyzer.vol_puts df)).
Proof. intros Hdf. volumen_lookup Hdf. Qed.

Lemma analyze_vol_put_call_ratio (df : DataFrame) :
  filas df ≠ [] →
  (VolumeAnalyzer.analyze (Some df)).1 !! "vol_put_call_ratio"
  = Some (VolumeAnalyzer.vol_put_call_ratio df).
Proof. intros Hdf. volumen_lookup Hdf. Qed.

Lemma analyze_rotación_promedio (df : DataFrame) :
  filas df ≠ [] →
  (VolumeAnalyzer.analyze (Some df)).1 !! "rotación_promedio"
  = Some (VolumeAnalyzer.rotación_promedio df).
Proof. intros Hdf. volumen_lookup Hdf. Qed.

Lemma analyze_alta_rotación_count (df : DataFrame) :
  filas df ≠ [] →
  (VolumeAnalyzer.analyze (Some df)).1 !! "alta_rotación_count"
  = Some (nat2Qc (VolumeAnalyzer.alta_rotación_count df)).
Proof. intros Hdf. volumen_lookup Hdf. Qed.

(** C4: on a snapshot with contracts, the metric 'vol_put_call_ratio' is 0
    when the CALL contracts have zero total volume, and the put volume
    divided by the call volume otherwise; 'vol_calls' and 'vol_puts' are the
    sums of the volume over the CALL and over the PUT contracts. *)
Theorem C4_vol_put_call_ratio (df : DataFrame) :
  filas df ≠ [] →
  let analysis := (VolumeAnalyzer.analyze (Some df)).1 in
  let vol_calls := pd.sum (volume <$> filter (λ c, tipo c = CALL) (filas df)) in
  let vol_puts := pd.sum (volume <$> filter (λ c, tipo c = PUT) (filas df)) in
  analysis !! "vol_calls" = Some (N2Qc vol_calls)
  ∧ analysis !! "vol_puts" = Some (N2Qc vol_puts)
  ∧ (vol_calls = 0%N → analysis !! "vol_put_call_ratio" = Some 0)
  ∧ (vol_calls ≠ 0%N →
     analysis !! "vol_put_call_ratio" = Some (N2Qc vol_puts / N2Qc vol_calls)).
Proof.
  intros Hdf analysis vol_calls vol_puts. subst analysis.
  rewrite analyze_vol_calls, analyze_vol_puts, analyze_vol_put_call_ratio by done.
  unfold VolumeAnalyzer.vol_put_call_ratio.
  fold vol_calls vol_puts.
  change (VolumeAnalyzer.vol_calls df) with vol_calls.
  change (VolumeAnalyzer.vol_puts df) with vol_puts.
  split; [reflexivity |]. split; [reflexivity |]. split.
  - intros ->. reflexivity.
  - intros Hne. destruct (N.ltb_spec 0 vol_calls) as [_ | Hle]; [reflexivity | lia].
Qed.

Lemma C4_vol_put_call_ratio_witness :
  let df := snapshot [contrato 100 PUT 7 3; contrato 105 PUT 5 0] in
  (VolumeAnalyzer.analyze (Some df)).1 !! "vol_put_call_ratio" = Some 0.
Proof.
  intros df.
  assert (Hdf : filas df ≠ []) by discriminate.
  pose proof (C4_vol_put_call_ratio df Hdf) as H. cbv zeta in H.
  destruct H as (_ & _ & H0 & _). apply H0. reflexivity.
Defined.

Lemma sumQ_zeros {A} (f : A → Qc) (l : list A) :
  Forall (λ x, f x = 0) l → pd.sumQ (f <$> l) = 0.
Proof.
  induction 1 as [| x l Hx _ IH]; [reflexivity |].
  rewrite fmap_cons. unfold pd.sumQ in *. cbn [foldr].
  rewrite Hx, IH. apply Qcplus_0_l.
Qed.

Lemma length_filter_fmap {A B} (P : B → Prop) `{∀ y, Decision (P y)} (f : A → B) (l : list A) :
  length (filter P (f <$> l)) = length (filter (λ x, P (f x)) l).
Proof.
  induction l as [| x l IH]; [reflexivity |].
  rewrite fmap_cons, !filter_cons.
  destruct (decide (P (f x))); cbn [length]; rewrite IH; reflexivity.
Qed.

Lemma filter_ninguno {A} (P : A → Prop) `{∀ x, Decision (P x)} (l : list A) :
  Forall (λ x, ¬ P x) l → filter P l = [].
Proof.
  induction 1 as [| x l Hx _ IH]; [reflexivity |].
  rewrite filter_cons_False by exact Hx. exact IH.
Qed.

Lemma vol_oi_individual_rotación (df : DataFrame) :
  VolumeAnalyzer.vol_oi_individual df = rotación_contrato <$> filas df.
Proof. reflexivity. Qed.

(** C5: on a snapshot with contracts, 'rotación_promedio' is the arithmetic
    mean, over all contracts, of the rotation of each contract, and
    'alta_rotación_count' counts the contracts whose rotation exceeds 1; when
    every contract has open interest 0 both are 0. *)
Theorem C5_mean_rotation (df : DataFrame) :
  filas df ≠ [] →
  let analysis := (VolumeAnalyzer.analyze (Some df)).1 in
  analysis !! "rotación_promedio"
    = Some (pd.sumQ (rotación_contrato <$> filas df) / nat2Qc (length (filas df)))
  ∧ analysis !! "alta_rotación_count"
    = Some (nat2Qc (length (filter (λ c, 1 < rotación_contrato c) (filas df))))
  ∧ (Forall (λ c, openInterest c = 0%N) (filas df) →
     analysis !! "rotación_promedio" = Some 0
     ∧ analysis !! "alta_rotación_count" = Some 0).
Proof.
  intros Hdf analysis. subst analysis.
  rewrite analyze_rotación_promedio, analyze_alta_rotación_count by done.
  unfold VolumeAnalyzer.rotación_promedio, VolumeAnalyzer.alta_rotación_count, pd.mean.
  rewrite vol_oi_individual_rotación, length_fmap, length_filter_fmap.
  split; [reflexivity |]. split; [reflexivity |].
  intros Hoi.
  assert (Hrot : Forall (λ c, rotación_contrato c = 0) (filas df)).
  { eapply Forall_impl; [exact Hoi |]. intros c Hc. unfold rotación_contrato.
    rewrite Hc. reflexivity. }
  split.
  - rewrite sumQ_zeros by exact Hrot. rewrite Qc_zero_div. reflexivity.
  - replace (filter (λ c, 1 < rotación_contrato c) (filas df)) with (@nil Contract).
    + cbn. rewrite nat2Qc_0. reflexivity.
    + symmetry. apply filter_ninguno. eapply Forall_impl; [exact Hrot |].
      intros c Hc Hlt. cbn beta in Hlt. rewrite Hc in Hlt. discriminate Hlt.
Qed.

Lemma C5_mean_rotation_witness :
  let df := snapshot [contrato 100 CALL 7 0; contrato 105 PUT 5 0] in
  (VolumeAnalyzer.analyze (Some df)).1 !! "rotación_promedio" = Some 0
  ∧ (VolumeAnalyzer.analyze (Some df)).1 !! "alta_rotación_count" = Some 0.
Proof.
  intros df.
  assert (Hdf : filas df ≠ []) by discriminate.
  pose proof (C5_mean_rotation df Hdf) as H. cbv zeta in H.
  destruct H as (_ & _ & H0). apply H0.
  repeat constructor.
Defined.

(** The mean of the rotations is not the aggregate volume over the
    aggregate open interest: one contract of open interest 1000 and volume
    10, one of open interest 1 and volume 10. *)
Lemma rotación_promedio_no_es_agregada :
  let df := snapshot [contrato 100 CALL 10 1000; contrato 105 CALL 10 1] in
  VolumeAnalyzer.rotación_promedio df = Q2Qc (1001 # 200)
  ∧ N2Qc (pd.sum (volume <$> filas df)) / N2Qc (pd.sum (openInterest <$> filas df))
    = Q2Qc (20 # 1001).
Proof. split; apply Qc_is_canon; reflexivity. Qed.

Lemma Qcinv_pos (x : Qc) : 0 < x → 0 < / x.
Proof.
  intros Hx. unfold Qclt in *.
  change (this (/ x)) with (Qred (/ this x)). rewrite Qred_correct.
  apply Qinv_lt_0_compat. exact Hx.
Qed.

Lemma Qcmult_nonneg (x y : Qc) : 0 ≤ x → 0 ≤ y → 0 ≤ x * y.
Proof.
  intros Hx Hy. rewrite <- (Qcmult_0_l y). apply Qcmult_le_compat_r; assumption.
Qed.

Lemma Qcplus_nonneg (x y : Qc) : 0 ≤ x → 0 ≤ y → 0 ≤ x + y.
Proof.
  intros Hx Hy. rewrite <- (Qcplus_0_l 0). apply Qcplus_le_compat; assumption.
Qed.

(** The denominator of the weight is at least 0.01. *)
Lemma peso_denominador_pos (m : Qc) : 0 < Qcabs (m - 1) + Q2Qc (1 # 100).
Proof.
  apply Qclt_le_trans with (0 + Q2Qc (1 # 100)); [reflexivity |].
  apply Qcplus_le_compat; [apply Qcabs_nonneg | apply Qcle_refl].
Qed.

Lemma peso_pos (m : Qc) : 0 < peso m.
Proof.
  unfold peso, Qcdiv. rewrite Qcmult_1_l. apply Qcinv_pos, peso_denominador_pos.
Qed.

Lemma sumQ_nonneg (xs : list Qc) : Forall (λ x, 0 ≤ x) xs → 0 ≤ pd.sumQ xs.
Proof.
  induction 1 as [| x xs Hx _ IH]; [apply Qcle_refl |].
  unfold pd.sumQ in *. cbn [foldr]. apply Qcplus_nonneg; assumption.
Qed.

Lemma volumen_ponderado_nonneg (t : Tipo) (cs : list Contract) :
  0 ≤ volumen_ponderado t cs.
Proof.
  unfold volumen_ponderado. apply sumQ_nonneg, Forall_fmap, Forall_forall.
  intros c _. cbn. apply Qcmult_nonneg; [apply N2Qc_nonneg |].
  apply Qclt_le_weak, peso_pos.
Qed.

Lemma in_columns_setitem (k label : string) (df : DataFrame) (xs : list Valor) :
  in_columns k (setitem df label xs) = bool_decide (k = label) || in_columns k df.
Proof.
  unfold in_columns, setitem. cbn [columns].
  destruct (decide (k = label)) as [-> | Hne].
  - rewrite (bool_decide_eq_true_2 (label = label)) by reflexivity.
    apply bool_decide_eq_true_2. apply elem_of_union_l, elem_of_singleton. reflexivity.
  - rewrite (bool_decide_eq_false_2 (k = label)) by exact Hne. cbn [orb].
    apply bool_decide_ext. rewrite elem_of_union, elem_of_singleton. tauto.
Qed.

Lemma analyze_vol_put_call_ponderado (df : DataFrame) :
  filas df ≠ [] → "moneyness" ∈ columns df →
  (VolumeAnalyzer.analyze (Some df)).1 !! "vol_put_call_ponderado"
  = Some (VolumeAnalyzer.vol_put_call_ponderado df).
Proof.
  intros Hdf Hcol. unfold VolumeAnalyzer.analyze.
  rewrite (validar_con_datos _ true Hdf). cbn [negb].
  rewrite in_columns_setitem.
  assert (Hin : in_columns "moneyness" df = true)
    by (apply bool_decide_eq_true_2; exact Hcol).
  rewrite Hin, orb_true_r.
  cbn [fst]. apply lookup_insert_eq.
Qed.

(** C9: on a snapshot with contracts and with the column 'moneyness', the
    metric 'vol_put_call_ponderado' is the weighted volume of the PUT
    contracts divided by the weighted volume of the CALL contracts, where a
    contract weighs 1 / (|moneyness - 1| + 0.01), and it is 0 when the
    weighted volume of the CALL contracts is 0; the denominator of the weight
    is positive for every moneyness. *)
Theorem C9_weighted_put_call_ratio (df : DataFrame) :
  filas df ≠ [] → "moneyness" ∈ columns df →
  let analysis := (VolumeAnalyzer.analyze (Some df)).1 in
  let ponderado (t : Tipo) :=
    pd.sumQ ((λ c, N2Qc (volume c) * (1 / (Qcabs (moneyness c - 1) + Q2Qc (1 # 100))))
               <$> filter (λ c, tipo c = t) (filas df)) in
  (∀ m : Qc, Qcabs (m - 1) + Q2Qc (1 # 100) ≠ 0)
  ∧ (ponderado CALL = 0 → analysis !! "vol_put_call_ponderado" = Some 0)
  ∧ (ponderado CALL ≠ 0 →
     analysis !! "vol_put_call_ponderado" = Some (ponderado PUT / ponderado CALL)).
Proof.
  intros Hdf Hcol analysis ponderado. subst analysis.
  rewrite analyze_vol_put_call_ponderado by assumption.
  unfold VolumeAnalyzer.vol_put_call_ponderado.
  change (VolumeAnalyzer.vol_calls_pond df) with (ponderado CALL).
  change (VolumeAnalyzer.vol_puts_pond df) with (ponderado PUT).
  split; [| split].
  - intros m Hm. pose proof (peso_denominador_pos m) as Hpos.
    rewrite Hm in Hpos. discriminate Hpos.
  - intros ->. reflexivity.
  - intros Hne.
    assert (Hpos : 0 < ponderado CALL).
    { destruct (Qcle_lt_or_eq 0 (ponderado CALL)) as [Hlt | Heq].
      - apply (volumen_ponderado_nonneg CALL (filas df)).
      - exact Hlt.
      - congruence. }
    apply Qc_gtb_true in Hpos. rewrite Hpos. reflexivity.
Qed.

Lemma C9_weighted_put_call_ratio_witness :
  let df := snapshot [contrato 100 CALL 10 5; contrato 95 PUT 33 5] in
  (VolumeAnalyzer.analyze (Some df)).1 !! "vol_put_call_ponderado" = Some (Q2Qc (11 # 20)).
Proof.
  intros df.
  assert (Hdf : filas df ≠ []) by discriminate.
  assert (Hcol : "moneyness" ∈ columns df)
    by (apply (bool_decide_eq_true_1 ("moneyness" ∈ columns df)); reflexivity).
  pose proof (C9_weighted_put_call_ratio df Hdf Hcol) as H. cbv zeta in H.
  destruct H as (_ & _ & H). rewrite H.
  - f_equal. apply Qc_is_canon. reflexivity.
  - intros H0. discriminate H0.
Defined.

(** ** What the volume engine does to its argument *)

(** Membership in the labels of a table after assignments. *)
Ltac columnas :=
  rewrite ?elem_of_union, ?elem_of_singleton; intuition congruence.

(** The table after [VolumeAnalyzer.analyze], on a snapshot with
    contracts. *)
Lemma analyze_estado (df : DataFrame) :
  filas df ≠ [] →
  (VolumeAnalyzer.analyze (Some df)).2
  = Some (let df1 := setitem df "vol_oi_individual"
                       (VNum <$> VolumeAnalyzer.vol_oi_individual df) in
          if in_columns "moneyness" df
          then setitem df1 "peso_distancia" (VNum ∘ VolumeAnalyzer.peso_distancia <$> filas df)
          else df1).
Proof.
  intros Hdf. unfold VolumeAnalyzer.analyze.
  rewrite (validar_con_datos _ true Hdf). cbn [negb].
  rewrite in_columns_setitem.
  rewrite (bool_decide_eq_false_2 ("moneyness" = "vol_oi_individual")) by discriminate.
  cbn [orb]. destruct (in_columns "moneyness" df); reflexivity.
Qed.

Lemma analyze_estado_sin_datos (df : DataFrame) :
  filas df = [] → (VolumeAnalyzer.analyze (Some df)).2 = Some df.
Proof.
  intros Hdf. unfold VolumeAnalyzer.analyze.
  rewrite validar_sin_datos by (right; eauto). reflexivity.
Qed.

(** The claim C3 as stated fails: computing the metrics of a snapshot of one
    contract leaves a table that has the column 'vol_oi_individual', which
    the snapshot did not have. *)
Lemma C3_counterexample :
  let df := snapshot [contrato 100 CALL 10 5] in
  (VolumeAnalyzer.analyze (Some df)).2 ≠ Some df
  ∧ ("vol_oi_individual" ∉ columns df)
  ∧ (∃ df', (VolumeAnalyzer.analyze (Some df)).2 = Some df'
            ∧ "vol_oi_individual" ∈ columns df'
            ∧ "peso_distancia" ∈ columns df').
Proof.
  intros df.
  assert (Hno : "vol_oi_individual" ∉ columns df).
  { apply (bool_decide_eq_false_1 ("vol_oi_individual" ∈ columns df)). reflexivity. }
  assert (Hdf : filas df ≠ []) by discriminate.
  rewrite (analyze_estado df Hdf).
  split; [| split; [exact Hno |]].
  - intros H.
    apply (f_equal (λ o : option DataFrame,
                      match o with
                      | Some d => bool_decide ("vol_oi_individual" ∈ columns d)
                      | None => false
                      end)) in H.
    vm_compute in H. discriminate H.
  - eexists. split; [reflexivity |].
    split; apply (bool_decide_eq_true_1 _); reflexivity.
Qed.

(** C3 (amended): [VolumeAnalyzer.analyze] adds, removes and modifies no
    contract row, and no column other than 'vol_oi_individual' and
    'peso_distancia'.  On a snapshot with contracts it writes the column
    'vol_oi_individual' (the rotation of each contract) into the table it was
    given, and 'peso_distancia' (the weight of each contract) when the table
    has the column 'moneyness', adding the column or replacing its values;
    an absent snapshot and a snapshot without contracts are left as they
    were. *)
Theorem C3_analyze_writes_only_derived_columns (df : DataFrame) :
  (VolumeAnalyzer.analyze None).2 = None
  ∧ ∃ df', (VolumeAnalyzer.analyze (Some df)).2 = Some df'
    ∧ filas df' = filas df
    ∧ (∀ k, k ∈ columns df → k ∈ columns df')
    ∧ (∀ k, k ≠ "vol_oi_individual" → k ≠ "peso_distancia" →
         (k ∈ columns df' ↔ k ∈ columns df) ∧ extra df' !! k = extra df !! k)
    ∧ (filas df = [] → df' = df)
    ∧ (filas df ≠ [] →
         "vol_oi_individual" ∈ columns df'
         ∧ extra df' !! "vol_oi_individual"
           = Some (VNum <$> (rotación_contrato <$> filas df)))
    ∧ (filas df ≠ [] →
         if decide ("moneyness" ∈ columns df)
         then "peso_distancia" ∈ columns df'
              ∧ extra df' !! "peso_distancia"
                = Some ((λ c, VNum (peso (moneyness c))) <$> filas df)
         else ("peso_distancia" ∈ columns df' ↔ "peso_distancia" ∈ columns df)
              ∧ extra df' !! "peso_distancia" = extra df !! "peso_distancia").
Proof.
  split; [reflexivity |].
  destruct (decide (filas df = [])) as [Hdf | Hdf].
  - exists df. rewrite analyze_estado_sin_datos by exact Hdf.
    split; [reflexivity |]. split; [reflexivity |]. split; [tauto |].
    split; [intros k _ _; split; reflexivity |].
    split; [intros _; reflexivity |]. split; intros; contradiction.
  - rewrite (analyze_estado df Hdf). eexists. split; [reflexivity |].
    unfold in_columns. destruct (decide ("moneyness" ∈ columns df)) as [Hm | Hm].
    + rewrite (bool_decide_eq_true_2 _ Hm). cbn [setitem filas columns extra].
      split; [reflexivity |].
      split; [intros k Hk; columnas |].
      split.
      { intros k Hk1 Hk2. split; [columnas |].
        rewrite !lookup_insert_ne by congruence. reflexivity. }
      split; [intros H; contradiction |].
      split.
      { intros _. split; [columnas |].
        rewrite lookup_insert_ne by discriminate. rewrite lookup_insert_eq. reflexivity. }
      intros _. split; [columnas |]. rewrite lookup_insert_eq. reflexivity.
    + rewrite (bool_decide_eq_false_2 _ Hm). cbn [setitem filas columns extra].
      split; [reflexivity |].
      split; [intros k Hk; columnas |].
      split.
      { intros k Hk1 Hk2. split; [columnas |].
        rewrite !lookup_insert_ne by congruence. reflexivity. }
      split; [intros H; contradiction |].
      split.
      { intros _. split; [columnas |]. rewrite lookup_insert_eq. reflexivity. }
      intros _. split; [columnas |].
      rewrite lookup_insert_ne by discriminate. reflexivity.
Qed.

Lemma C3_analyze_writes_only_derived_columns_witness :
  let df := snapshot [contrato 100 CALL 10 5; contrato 95 PUT 4 0] in
  ∃ df', (VolumeAnalyzer.analyze (Some df)).2 = Some df'
    ∧ filas df' = filas df
    ∧ extra df' !! "vol_oi_individual" = Some [VNum (Q2Qc 2); VNum 0].
Proof.
  intros df.
  destruct (C3_analyze_writes_only_derived_columns df)
    as (_ & df' & Hst & Hfilas & _ & _ & _ & Hvol & _).
  exists df'. split; [exact Hst |]. split; [exact Hfilas |].
  assert (Hdf : filas df ≠ []) by discriminate.
  destruct (Hvol Hdf) as [_ ->]. f_equal.
  cbn. repeat f_equal; apply Qc_is_canon; reflexivity.
Defined.

(** ** The stable sort *)

Section orden_estable.

Context {A : Type} (key : A → nat).

Local Abbreviation leb := (λ x y : A, key x <=? key y)%nat.
Local Abbreviation menor_o_igual := (λ x y : A, key x ≤ key y)%nat.

Lemma insert_by_perm (x : A) (l : list A) : insert_by leb x l ≡ₚ x :: l.
Proof.
  induction l as [| y l IH]; [reflexivity |].
  cbn [insert_by]. destruct (key x <=? key y)%nat; [reflexivity |].
  rewrite IH. apply Permutation_swap.
Qed.

Lemma sort_by_perm (l : list A) : sort_by leb l ≡ₚ l.
Proof.
  induction l as [| x l IH]; [reflexivity |].
  cbn [sort_by foldr]. rewrite insert_by_perm. fold (sort_by leb l).
  rewrite IH. reflexivity.
Qed.

Lemma insert_by_sorted (x : A) (l : list A) :
  StronglySorted menor_o_igual l → StronglySorted menor_o_igual (insert_by leb x l).
Proof.
  induction 1 as [| y l Hl IH Hy]; cbn [insert_by].
  - repeat constructor.
  - destruct (Nat.leb_spec (key x) (key y)) as [Hxy | Hyx].
    + constructor; [constructor; assumption |].
      constructor; [exact Hxy |].
      eapply Forall_impl; [exact Hy |]. cbn. intros z Hz. lia.
    + constructor; [exact IH |].
      rewrite insert_by_perm. constructor; [cbn; lia | exact Hy].
Qed.

Lemma sort_by_sorted (l : list A) : StronglySorted menor_o_igual (sort_by leb l).
Proof.
  induction l as [| x l IH]; [constructor |].
  cbn [sort_by foldr]. apply insert_by_sorted. exact IH.
Qed.

(** Stability: a class of elements of one key keeps its order. *)
Lemma insert_by_filter (P : A → Prop) `{∀ a, Decision (P a)} (x : A) (l : list A) :
  (∀ a b, P a → P b → key a = key b) →
  filter P (insert_by leb x l) = filter P (x :: l).
Proof.
  intros HP. induction l as [| y l IH]; [reflexivity |].
  cbn [insert_by]. destruct (Nat.leb_spec (key x) (key y)) as [Hxy | Hyx]; [reflexivity |].
  rewrite (filter_cons _ y), IH, !(filter_cons _ x), (filter_cons _ y).
  destruct (decide (P x)) as [Hx | Hx], (decide (P y)) as [Hy | Hy]; try reflexivity.
  specialize (HP x y Hx Hy). lia.
Qed.

Lemma sort_by_filter (P : A → Prop) `{∀ a, Decision (P a)} (l : list A) :
  (∀ a b, P a → P b → key a = key b) →
  filter P (sort_by leb l) = filter P l.
Proof.
  intros HP. induction l as [| x l IH]; [reflexivity |].
  cbn [sort_by foldr]. rewrite insert_by_filter by exact HP.
  fold (sort_by leb l). rewrite !filter_cons, IH. reflexivity.
Qed.

Lemma sorted_lookup (l : list A) (i j : nat) (a b : A) :
  StronglySorted menor_o_igual l →
  l !! i = Some a → l !! j = Some b → (i < j)%nat → (key a ≤ key b)%nat.
Proof.
  intros Hl. revert i j. induction Hl as [| y l Hl IH Hy]; intros i j Hi Hj Hij.
  - discriminate Hi.
  - destruct j as [| j]; [lia |]. destruct i as [| i].
    + cbn in Hi, Hj. injection Hi as <-.
      rewrite Forall_forall in Hy. apply Hy.
      apply list_elem_of_lookup. eauto.
    + cbn in Hi, Hj. apply (IH i j); [assumption | assumption | lia].
Qed.

End orden_estable.

(** ** The order of the alerts *)

Lemma clave_prioridad_ALTA (a : Alerta) :
  a !! "prioridad" = Some (VStr "ALTA") → helpers.clave_prioridad a = 1%nat.
Proof. intros H. unfold helpers.clave_prioridad. rewrite H. reflexivity. Qed.

Lemma clave_prioridad_MEDIA (a : Alerta) :
  a !! "prioridad" = Some (VStr "MEDIA") → helpers.clave_prioridad a = 2%nat.
Proof. intros H. unfold helpers.clave_prioridad. rewrite H. reflexivity. Qed.

Lemma clave_prioridad_BAJA (a : Alerta) :
  a !! "prioridad" = Some (VStr "BAJA") → helpers.clave_prioridad a = 3%nat.
Proof. intros H. unfold helpers.clave_prioridad. rewrite H. reflexivity. Qed.

(** Completing an alert with its symbol and analyzer leaves its priority. *)
Lemma alerta_completa_prioridad (símbolo analyzer_name : string) (alerta : Alerta) :
  ReportGenerator.alerta_completa símbolo analyzer_name alerta !! "prioridad"
  = alerta !! "prioridad".
Proof.
  unfold ReportGenerator.alerta_completa. rewrite lookup_union.
  replace (({["símbolo" := VStr símbolo; "analizador" := VStr analyzer_name]}
              : gmap string Valor) !! "prioridad") with (@None Valor).
  - destruct (alerta !! "prioridad"); reflexivity.
  - symmetry. rewrite lookup_insert_ne by discriminate.
    apply lookup_singleton_ne. discriminate.
Qed.

(** C6: the alerts ordered by [ordenar_alertas_por_prioridad] are the input
    alerts, in non-decreasing priority rank (ALTA 1, MEDIA 2, BAJA 3): no
    MEDIA alert precedes an ALTA alert, and no BAJA alert precedes a MEDIA or
    an ALTA alert; the alerts of one priority, and the alerts of one rank,
    keep the order they have in the input.  [consolidar_alertas] orders in
    this way the alerts it collects, whose priorities are those the analyzers
    gave. *)
Theorem C6_alerts_sorted_by_priority_stably (alertas : list Alerta) :
  let ordenadas := helpers.ordenar_alertas_por_prioridad alertas in
  ordenadas ≡ₚ alertas
  ∧ StronglySorted (λ a b, helpers.clave_prioridad a ≤ helpers.clave_prioridad b)%nat
      ordenadas
  ∧ (∀ (i j : nat) (a b : Alerta),
       ordenadas !! i = Some a → ordenadas !! j = Some b → (i < j)%nat →
       (a !! "prioridad" = Some (VStr "MEDIA") → b !! "prioridad" ≠ Some (VStr "ALTA"))
       ∧ (a !! "prioridad" = Some (VStr "BAJA") →
          b !! "prioridad" ≠ Some (VStr "ALTA") ∧ b !! "prioridad" ≠ Some (VStr "MEDIA")))
  ∧ (∀ p : option Valor,
       filter (λ a : Alerta, a !! "prioridad" = p) ordenadas
       = filter (λ a : Alerta, a !! "prioridad" = p) alertas)
  ∧ (∀ r : nat,
       filter (λ a, helpers.clave_prioridad a = r) ordenadas
       = filter (λ a, helpers.clave_prioridad a = r) alertas)
  ∧ (∀ análisis_resultados,
       ReportGenerator.consolidar_alertas análisis_resultados
       = helpers.ordenar_alertas_por_prioridad
           (ReportGenerator.alertas_consolidadas análisis_resultados))
  ∧ (∀ símbolo analyzer_name alerta,
       ReportGenerator.alerta_completa símbolo analyzer_name alerta !! "prioridad"
       = alerta !! "prioridad").
Proof.
  intros ordenadas. subst ordenadas.
  unfold helpers.ordenar_alertas_por_prioridad, sorted.
  pose proof (sort_by_sorted helpers.clave_prioridad alertas) as Hs.
  split; [apply sort_by_perm |]. split; [exact Hs |]. split.
  { intros i j a b Hi Hj Hij.
    pose proof (sorted_lookup helpers.clave_prioridad _ i j a b Hs Hi Hj Hij) as Hle.
    split.
    - intros Ha Hb. apply clave_prioridad_MEDIA in Ha. apply clave_prioridad_ALTA in Hb. lia.
    - intros Ha. apply clave_prioridad_BAJA in Ha.
      split; intros Hb;
        [apply clave_prioridad_ALTA in Hb | apply clave_prioridad_MEDIA in Hb]; lia. }
  split.
  { intros p. apply sort_by_filter. intros a b Ha Hb.
    unfold helpers.clave_prioridad. rewrite Ha, Hb. reflexivity. }
  split.
  { intros r. apply sort_by_filter. intros a b Ha Hb. congruence. }
  split; [reflexivity |].
  apply alerta_completa_prioridad.
Qed.

(** ** The event window *)

Lemma elem_of_eventos_en_ventana {E} (calendario : list (string * list Z))
    (en_ventana : Z → bool) (mk : string → Z → E) (e : E) :
  e ∈ eventos_en_ventana calendario en_ventana mk
  ↔ ∃ tipo_evento fechas fecha,
      (tipo_evento, fechas) ∈ calendario ∧ fecha ∈ fechas
      ∧ en_ventana fecha = true ∧ e = mk tipo_evento fecha.
Proof.
  unfold eventos_en_ventana.
  induction calendario as [| [t fs] cal IH]; cbn [flat_map].
  - split; [intros H; inversion H |].
    intros (? & ? & ? & H & _). inversion H.
  - rewrite elem_of_app, IH, list_elem_of_fmap. split.
    + intros [(fecha & -> & Hf) | (t' & fs' & fecha & Hin & Hrest)].
      * apply list_elem_of_filter in Hf as [Hw Hf].
        exists t, fs, fecha. repeat split; [left | exact Hf | exact Hw].
      * exists t', fs', fecha. split; [right; exact Hin | exact Hrest].
    + intros (t' & fs' & fecha & Hin & Hf & Hw & ->).
      apply elem_of_cons in Hin as [Heq | Hin].
      * injection Heq as -> ->. left. exists fecha. split; [reflexivity |].
        apply list_elem_of_filter. split; assumption.
      * right. exists t', fs', fecha. repeat split; assumption.
Qed.

Lemma fecha_limite_ok (now n : Z) :
  (0 ≤ n)%Z → (datetime.MIN ≤ now)%Z → (now + n * datetime.US_POR_DÍA ≤ datetime.MAX)%Z →
  datetime.timedelta n ≫= datetime.add now = Some (now + n * datetime.US_POR_DÍA)%Z.
Proof.
  unfold datetime.timedelta, datetime.add, datetime.MIN, datetime.MAX, datetime.US_POR_DÍA.
  intros Hn Hnow Hmax.
  destruct (Z.leb_spec (Z.abs n) 999999999) as [_ | Habs]; [| lia].
  cbn [mbind option_bind].
  destruct (Z.leb_spec 0 (now + n * 86400000000)) as [_ | H0]; [| lia].
  destruct (Z.leb_spec (now + n * 86400000000) (3652059 * 86400000000 - 1)) as [_ | H1];
    [reflexivity | lia].
Qed.

(** C7: at the time [now], with a lookahead of [n >= 0] days whose limit
    date is a representable datetime, both event queries return an event of
    category [tipo] dated [d] exactly when the calendar lists [d] under
    [tipo] and [now <= d <= now + n days], both bounds included.  So with
    [n = 0] an entry equal to [now] is returned, and an entry later than the
    limit, one day past it for instance, is not. *)
Theorem C7_event_window_inclusive (calendario : list (string * list Z))
    (now n : Z) (símbolo : string) :
  (0 ≤ n)%Z → (datetime.MIN ≤ now)%Z →
  (now + n * datetime.US_POR_DÍA ≤ datetime.MAX)%Z →
  let límite := (now + n * datetime.US_POR_DÍA)%Z in
  ∃ evs evs',
    helpers.detectar_eventos_proximos now calendario n = Some evs
    ∧ EventsAnalyzer.detectar_eventos_próximos_en calendario now símbolo n = Some evs'
    ∧ (∀ tipo d,
         (∃ e, e ∈ evs ∧ ev_tipo e = tipo ∧ ev_fecha e = d)
         ↔ (∃ fechas, (tipo, fechas) ∈ calendario ∧ d ∈ fechas ∧ (now ≤ d ≤ límite)%Z))
    ∧ (∀ tipo d,
         (∃ e, e ∈ evs' ∧ ev_tipo e = tipo ∧ ev_fecha e = d)
         ↔ (∃ fechas, (tipo, fechas) ∈ calendario ∧ d ∈ fechas ∧ (now ≤ d ≤ límite)%Z))
    ∧ (n = 0%Z → ∀ tipo fechas, (tipo, fechas) ∈ calendario → now ∈ fechas →
         (∃ e, e ∈ evs ∧ ev_tipo e = tipo ∧ ev_fecha e = now)
         ∧ (∃ e, e ∈ evs' ∧ ev_tipo e = tipo ∧ ev_fecha e = now))
    ∧ (∀ e, e ∈ evs ∨ e ∈ evs' → ev_fecha e ≠ (límite + datetime.US_POR_DÍA)%Z).
Proof.
  intros Hn Hnow Hmax límite.
  pose proof (fecha_limite_ok now n Hn Hnow Hmax) as Hlim.
  unfold helpers.detectar_eventos_proximos, EventsAnalyzer.detectar_eventos_próximos_en.
  destruct (datetime.timedelta n) as [delta |]; [| discriminate Hlim].
  cbn [mbind option_bind] in Hlim |- *. rewrite Hlim. cbn [mbind option_bind].
  fold límite.
  set (ventana := λ fecha : Z, (now <=? fecha)%Z && (fecha <=? límite)%Z).
  assert (Hventana : ∀ d, ventana d = true ↔ (now ≤ d ≤ límite)%Z).
  { intros d. unfold ventana. rewrite andb_true_iff, !Z.leb_le. reflexivity. }
  assert (Hiff : ∀ (mk : string → Z → Evento),
            (∀ t f, ev_tipo (mk t f) = t ∧ ev_fecha (mk t f) = f) →
            ∀ tipo d,
              (∃ e, e ∈ eventos_en_ventana calendario ventana mk
                    ∧ ev_tipo e = tipo ∧ ev_fecha e = d)
              ↔ (∃ fechas, (tipo, fechas) ∈ calendario ∧ d ∈ fechas
                           ∧ (now ≤ d ≤ límite)%Z)).
  { intros mk Hmk tipo d. split.
    - intros (e & He & <- & <-).
      apply elem_of_eventos_en_ventana in He as (t & fs & f & Hin & Hf & Hw & ->).
      destruct (Hmk t f) as [-> ->]. exists fs.
      split; [exact Hin |]. split; [exact Hf |]. apply Hventana, Hw.
    - intros (fs & Hin & Hf & Hw). exists (mk tipo d).
      split; [| apply Hmk].
      apply elem_of_eventos_en_ventana. exists tipo, fs, d.
      repeat split; try assumption. apply Hventana. exact Hw. }
  eexists _, _. split; [reflexivity |]. split; [reflexivity |].
  split; [apply Hiff; intros; split; reflexivity |].
  split; [apply Hiff; intros; split; reflexivity |].
  split.
  - intros -> tipo fechas Hin Hf. split.
    + apply Hiff; [intros; split; reflexivity |]. exists fechas.
      repeat split; try assumption; unfold límite; lia.
    + apply Hiff; [intros; split; reflexivity |]. exists fechas.
      repeat split; try assumption; unfold límite; lia.
  - intros e [He | He] Hd;
      apply elem_of_eventos_en_ventana in He as (t & fs & f & _ & _ & Hw & ->);
      apply Hventana in Hw; cbn in Hd; unfold datetime.US_POR_DÍA in Hd; lia.
Qed.

Lemma C7_event_window_inclusive_witness :
  let now := datetime.datetime 2025 1 15 in
  ∃ evs',
    EventsAnalyzer.detectar_eventos_próximos now "SPY" 0 = Some evs'
    ∧ (∃ e, e ∈ evs' ∧ ev_tipo e = "earnings_season" ∧ ev_fecha e = now)
    ∧ (∀ e, e ∈ evs' → ev_fecha e ≠ datetime.datetime 2025 1 16).
Proof.
  intros now.
  destruct (C7_event_window_inclusive Config.EVENTOS_CALENDARIO now 0 "SPY")
    as (evs & evs' & _ & Hevs' & _ & _ & Hnow & Hpast).
  - reflexivity.
  - apply Z.leb_le. reflexivity.
  - apply Z.leb_le. reflexivity.
  - exists evs'. split; [exact Hevs' |]. split.
    + refine (proj2 (Hnow eq_refl "earnings_season" _ _ _)).
      * apply elem_of_cons. left. reflexivity.
      * apply elem_of_cons. left. reflexivity.
    + intros e He. apply Hpast. right. exact He.
Defined.

(** ** Alerts before an event *)

Lemma alerta_defensiva_campos (tipo_evento : string) (pcr : Qc) :
  let a := EventsAnalyzer.alerta_defensiva tipo_evento pcr in
  a !! "tipo" = Some (VStr "VOLUMEN_DEFENSIVO_PRE_EVENTO")
  ∧ a !! "prioridad" = Some (VStr "MEDIA")
  ∧ a !! "valor" = Some (VNum pcr)
  ∧ a !! "umbral" = Some (VNum (Q2Qc (15 # 10)))
  ∧ a !! "descripción"
    = Some (VStr ("Put/Call ratio elevado (" +:+ fmt_f 2 pcr +:+ ") antes de "
                  +:+ tipo_evento)).
Proof.
  cbv zeta. unfold EventsAnalyzer.alerta_defensiva.
  repeat split; rewrite ?lookup_insert_ne by discriminate;
    first [apply lookup_insert_eq | apply lookup_singleton_eq].
Qed.

Lemma alerta_ofensiva_tipo (tipo_evento : string) (pcr : Qc) :
  EventsAnalyzer.alerta_ofensiva tipo_evento pcr !! "tipo"
  = Some (VStr "VOLUMEN_OFENSIVO_PRE_EVENTO").
Proof. unfold EventsAnalyzer.alerta_ofensiva. apply lookup_insert_eq. Qed.

Lemma foldl_alertas_pre_evento (alertas : list Alerta)
    (métricas_pre_evento : list (string * gmap string Qc)) :
  foldl EventsAnalyzer.alertas_pre_evento alertas métricas_pre_evento
  = alertas ++ foldl EventsAnalyzer.alertas_pre_evento [] métricas_pre_evento.
Proof.
  revert alertas. induction métricas_pre_evento as [| [t m] mpe IH]; intros alertas.
  - cbn. rewrite app_nil_r. reflexivity.
  - cbn [foldl]. rewrite IH.
    rewrite (IH (EventsAnalyzer.alertas_pre_evento [] (t, m))).
    rewrite app_assoc. f_equal.
    unfold EventsAnalyzer.alertas_pre_evento.
    repeat case_match; rewrite ?app_nil_r; reflexivity.
Qed.

Lemma defensivas_pre_evento (métricas_pre_evento : list (string * gmap string Qc)) :
  filter es_defensiva (foldl EventsAnalyzer.alertas_pre_evento [] métricas_pre_evento)
  = (λ item, EventsAnalyzer.alerta_defensiva item.1 (get0 item.2 "pcr_ratio"))
      <$> filter (λ item, Q2Qc (15 # 10) < get0 item.2 "pcr_ratio") métricas_pre_evento.
Proof.
  induction métricas_pre_evento as [| [t m] mpe IH]; [reflexivity |].
  cbn [foldl]. rewrite foldl_alertas_pre_evento, filter_app, IH.
  rewrite (filter_cons _ (t, m)). cbn [fst snd].
  unfold EventsAnalyzer.alertas_pre_evento at 1. unfold Qc_gtb.
  destruct (decide (Q2Qc (15 # 10) < get0 m "pcr_ratio")) as [Hgt | Hle].
  - rewrite (bool_decide_eq_true_2 _ Hgt). cbn [app].
    rewrite filter_cons_True by apply alerta_defensiva_campos.
    reflexivity.
  - rewrite (bool_decide_eq_false_2 _ Hle).
    destruct (bool_decide (0 < get0 m "pcr_ratio") && bool_decide (get0 m "pcr_ratio" < Q2Qc (7 # 10))).
    + cbn [app]. rewrite filter_cons_False; [reflexivity |].
      rewrite alerta_ofensiva_tipo. discriminate.
    + reflexivity.
Qed.

(** The claim C2 as stated fails.  On 2025-01-01 four events of the calendar
    lie within the lookahead for SPY, and a snapshot with call volume 10 and
    put volume 13 gives each category the pre-event put/call ratio 1.3, above
    1.2: alert generation emits no pre-event defensive alert, and no alert of
    priority ALTA at all. *)
Lemma C2_counterexample :
  let now := datetime.datetime 2025 1 1 in
  let df := snapshot [contrato 100 CALL 10 5; contrato 95 PUT 13 5] in
  let r := EventsAnalyzer.analyze false now "SPY" (Some df) in
  length <$> (r ≫= eventos) = Some 4%nat
  ∧ fmap (M := list) (λ item, (item.1, this (get0 item.2 "pcr_ratio")))
      <$> (r ≫= métricas_pre_evento)
    = Some [("earnings_season", 13 # 10); ("fomc_meetings", 13 # 10);
            ("quad_witching", 13 # 10)]%Q
  ∧ Config.UMBRAL_PCR_DEFENSIVO < Q2Qc (13 # 10)
  ∧ (λ a : Alerta, a !! "tipo") <$> EventsAnalyzer.get_alerts "SPY" r
    = [Some (VStr "MÚLTIPLES_EVENTOS")]%list
  ∧ (λ a : Alerta, a !! "prioridad") <$> EventsAnalyzer.get_alerts "SPY" r
    = [Some (VStr "MEDIA")]%list.
Proof.
  repeat split; vm_compute; reflexivity.
Qed.

(** C2 (amended): for a symbol with at least one event inside the
    lookahead window, alert generation emits the pre-event defensive alert
    VOLUMEN_DEFENSIVO_PRE_EVENTO, of priority MEDIA and threshold 1.5, once
    for each event category whose pre-event put/call volume ratio exceeds
    1.5, in the order of the categories, its description naming the
    category; it emits none for a category whose ratio is at most 1.5. *)
Theorem C2_pre_event_defensive_alert (símbolo : string) (r : AnálisisResultado)
    (evs : list Evento) (mpe : list (string * gmap string Qc)) :
  eventos r = Some evs → evs ≠ [] → métricas_pre_evento r = Some mpe →
  filter es_defensiva (EventsAnalyzer.get_alerts símbolo (Some r))
  = (λ item, EventsAnalyzer.alerta_defensiva item.1 (get0 item.2 "pcr_ratio"))
      <$> filter (λ item, Q2Qc (15 # 10) < get0 item.2 "pcr_ratio") mpe
  ∧ ∀ tipo_evento pcr,
      let a := EventsAnalyzer.alerta_defensiva tipo_evento pcr in
      a !! "tipo" = Some (VStr "VOLUMEN_DEFENSIVO_PRE_EVENTO")
      ∧ a !! "prioridad" = Some (VStr "MEDIA")
      ∧ a !! "valor" = Some (VNum pcr)
      ∧ a !! "umbral" = Some (VNum (Q2Qc (15 # 10)))
      ∧ a !! "descripción"
        = Some (VStr ("Put/Call ratio elevado (" +:+ fmt_f 2 pcr +:+ ") antes de "
                      +:+ tipo_evento)).
Proof.
  intros Hevs Hne Hmpe. split; [| apply alerta_defensiva_campos].
  unfold EventsAnalyzer.get_alerts.
  assert (Hno : dict_vacío r = false) by (unfold dict_vacío; rewrite Hevs; reflexivity).
  rewrite Hno, Hevs, Hmpe.
  destruct evs as [| ev evs]; [contradiction |].
  change (default [] (Some (ev :: evs))) with (ev :: evs).
  rewrite foldl_alertas_pre_evento.
  set (inminentes := filter (λ e, (default 999 (ev_días_restantes e) < 7)%Z) (ev :: evs)).
  assert (Htail : ∀ l (x : Alerta),
            x !! "tipo" ≠ Some (VStr "VOLUMEN_DEFENSIVO_PRE_EVENTO") →
            filter es_defensiva (l ++ [x]) = filter es_defensiva l).
  { intros l x Hx. rewrite filter_app, filter_cons_False by exact Hx.
    rewrite filter_nil, app_nil_r. reflexivity. }
  assert (Hhead : filter es_defensiva
            (match inminentes with
             | [] => []
             | _ :: _ =>
                 [] ++
                 [ ({[ "tipo" := VStr "EVENTO_INMINENTE";
                       "prioridad" := VStr "ALTA";
                       "descripción" :=
                         VStr ("Evento inminente en "
                               +:+ fmt_int (Z.of_nat (length inminentes))
                               +:+ " día(s): "
                               +:+ String.concat ", " (ev_tipo <$> inminentes));
                       "valor" := VNum (nat2Qc (length inminentes)) ]} : Alerta) ]
             end) = []).
  { destruct inminentes; [reflexivity |]. cbn [app].
    rewrite filter_cons_False by (rewrite lookup_insert_eq; discriminate).
    reflexivity. }
  destruct (3 <? length (ev :: evs))%nat.
  - rewrite Htail by (rewrite lookup_insert_eq; discriminate).
    rewrite filter_app, Hhead. cbn [app]. apply defensivas_pre_evento.
  - rewrite filter_app, Hhead. cbn [app]. apply defensivas_pre_evento.
Qed.

Lemma C2_pre_event_defensive_alert_witness :
  let ev := {| ev_símbolo := Some "SPY"; ev_tipo := "fomc_meetings";
               ev_fecha := datetime.datetime 2025 1 29;
               ev_días_restantes := Some 28%Z; ev_dias_restantes := None;
               ev_sector := Some "Indices"; ev_volumen_análisis := None |} in
  let mpe := [("fomc_meetings", ({[ "pcr_ratio" := Q2Qc 2 ]} : gmap string Qc))]%list in
  let r := {| eventos := Some [ev]%list; métricas_pre_evento := Some mpe;
              concentración_vencimientos := Some []; cantidad_eventos := Some 1%nat |} in
  filter es_defensiva (EventsAnalyzer.get_alerts "SPY" (Some r))
  = [EventsAnalyzer.alerta_defensiva "fomc_meetings"
       (get0 {[ "pcr_ratio" := Q2Qc 2 ]} "pcr_ratio")]%list.
Proof.
  intros ev mpe r.
  destruct (C2_pre_event_defensive_alert "SPY" r [ev]%list mpe) as [H _].
  - reflexivity.
  - discriminate.
  - reflexivity.
  - rewrite H. reflexivity.
Defined.

(** ** The concentration of the open interest *)

Lemma analyze_oi_concentration (df : DataFrame) :
  filas df ≠ [] →
  OpenInterestAnalyzer.analyze (Some df) !! "oi_concentration"
  = Some (OpenInterestAnalyzer.oi_concentration df).
Proof.
  intros Hdf. unfold OpenInterestAnalyzer.analyze.
  rewrite (validar_con_datos _ true Hdf). cbn [negb].
  repeat case_match; rewrite ?lookup_insert_ne by done; apply lookup_insert_eq.
Qed.

(** When the total open interest is 0 the concentration is 0. *)
Lemma oi_concentration_total_0 (df : DataFrame) :
  pd.sum (openInterest <$> filas df) = 0%N →
  OpenInterestAnalyzer.oi_concentration df = 0.
Proof.
  intros H. unfold OpenInterestAnalyzer.oi_concentration. rewrite H. reflexivity.
Qed.

(** Sorting the image of a list. *)
Lemma sort_by_fmap {A B} (f : A → B) (lebA : A → A → bool) (lebB : B → B → bool)
    (l : list A) :
  (∀ x y, lebB (f x) (f y) = lebA x y) →
  sort_by lebB (f <$> l) = f <$> sort_by lebA l.
Proof.
  intros Hleb. induction l as [| x l IH]; [reflexivity |].
  rewrite fmap_cons. cbn [sort_by foldr].
  fold (sort_by lebB (f <$> l)). fold (sort_by lebA l). rewrite IH.
  generalize (sort_by lebA l). intros s.
  induction s as [| y s IHs]; [reflexivity |].
  rewrite fmap_cons. cbn [insert_by]. rewrite Hleb.
  destruct (lebA x y); [reflexivity |]. rewrite IHs, !fmap_cons. reflexivity.
Qed.

Lemma acumular_nuevo {K} `{EqDecision K} (k : K) (v : N) (g : list (K * N)) :
  k ∉ g.*1 → pd.acumular k v g = g ++ [(k, v)].
Proof.
  induction g as [| [k' v'] g IH]; intros Hk; [reflexivity |].
  cbn [pd.acumular]. rewrite fmap_cons, not_elem_of_cons in Hk. destruct Hk as [Hne Hk].
  destruct (decide (k = k')) as [-> | _]; [contradiction |].
  cbn [app]. rewrite IH by exact Hk. reflexivity.
Qed.

(** With one row per key the groups are the rows. *)
Lemma agrupar_sin_repetidos {A K} `{EqDecision K} (key : A → K) (col : A → N)
    (rows : list A) :
  NoDup (key <$> rows) → pd.agrupar key col rows = (λ r, (key r, col r)) <$> rows.
Proof.
  unfold pd.agrupar.
  enough (Hgen : ∀ g, NoDup (g.*1 ++ (key <$> rows)) →
            foldl (λ g r, pd.acumular (key r) (col r) g) g rows
            = g ++ ((λ r, (key r, col r)) <$> rows)).
  { intros Hnd. apply (Hgen []). exact Hnd. }
  induction rows as [| r rows IH]; intros g Hnd.
  - cbn. rewrite app_nil_r. reflexivity.
  - cbn [foldl]. rewrite fmap_cons in Hnd. apply NoDup_app in Hnd as (Hg & Hdisj & Hrows).
    apply NoDup_cons in Hrows as [Hr Hrows].
    rewrite acumular_nuevo.
    + rewrite IH.
      * rewrite <- app_assoc. reflexivity.
      * rewrite fmap_app. cbn [fmap list_fmap]. rewrite <- app_assoc. cbn [app].
        apply NoDup_app. split; [exact Hg |]. split.
        { intros x Hx Hx'. apply (Hdisj x Hx). exact Hx'. }
        apply NoDup_cons. split; assumption.
    + intros Hin. apply (Hdisj _ Hin). left.
Qed.

(** Where no two contracts share a strike, the concentration the code
    computes is the concentration of the specification. *)
Lemma oi_concentration_un_contrato_por_strike (df : DataFrame) :
  NoDup (strike <$> filas df) →
  OpenInterestAnalyzer.oi_concentration df
  = OpenInterestAnalyzer.oi_concentration_por_strike df.
Proof.
  intros Hnd.
  unfold OpenInterestAnalyzer.oi_concentration, OpenInterestAnalyzer.oi_concentration_por_strike,
    OpenInterestAnalyzer.top_5_oi, pd.nlargest.
  rewrite (agrupar_sin_repetidos strike openInterest _ Hnd).
  rewrite (sort_by_fmap (λ r, (strike r, openInterest r))
             (λ x y, openInterest y <=? openInterest x)%N) by reflexivity.
  rewrite <- fmap_take, <- list_fmap_compose. reflexivity.
Qed.

(** C1: the code ranks contracts, not strikes.  With all 100 units of open
    interest at one strike, held by ten contracts of 10 units, the
    concentration the code reports is 50 where the claim says 100; with 5
    units at each of 20 strikes, held as a CALL of 2 and a PUT of 3, it
    reports 15 where the claim says 25.  With one contract per strike the
    code reports the 25 of the claim, and with a total of 0 it reports 0. *)
Theorem C1_oi_concentration_ranks_contracts :
  (OpenInterestAnalyzer.analyze (Some snapshot_un_strike) !! "oi_concentration"
     = Some (Q2Qc 50)
   ∧ OpenInterestAnalyzer.oi_concentration_por_strike snapshot_un_strike = Q2Qc 100)
  ∧ (OpenInterestAnalyzer.analyze (Some snapshot_20_strikes_call_put) !! "oi_concentration"
       = Some (Q2Qc 15)
     ∧ OpenInterestAnalyzer.oi_concentration_por_strike snapshot_20_strikes_call_put
       = Q2Qc 25)
  ∧ (OpenInterestAnalyzer.analyze (Some snapshot_20_strikes) !! "oi_concentration"
       = Some (Q2Qc 25)
     ∧ OpenInterestAnalyzer.oi_concentration_por_strike snapshot_20_strikes = Q2Qc 25)
  ∧ (∀ df, filas df ≠ [] → pd.sum (openInterest <$> filas df) = 0%N →
       OpenInterestAnalyzer.analyze (Some df) !! "oi_concentration" = Some 0).
Proof.
  assert (Hcode : ∀ df q, filas df ≠ [] →
            this (OpenInterestAnalyzer.oi_concentration df) = this q →
            OpenInterestAnalyzer.analyze (Some df) !! "oi_concentration" = Some q).
  { intros df q Hdf Hq. rewrite analyze_oi_concentration by exact Hdf.
    f_equal. apply Qc_is_canon. rewrite Hq. reflexivity. }
  split; [split; [apply Hcode; [discriminate | vm_compute; reflexivity]
                 | apply Qc_is_canon; vm_compute; reflexivity] |].
  split; [split; [apply Hcode; [discriminate | vm_compute; reflexivity]
                 | apply Qc_is_canon; vm_compute; reflexivity] |].
  split; [split; [apply Hcode; [discriminate | vm_compute; reflexivity]
                 | apply Qc_is_canon; vm_compute; reflexivity] |].
  intros df Hdf H0. rewrite analyze_oi_concentration by exact Hdf.
  f_equal. apply oi_concentration_total_0. exact H0.
Qed.

(** * Further properties of the code *)

(** ** Integers among the rationals *)


Lemma Q2Qc_le (x y : Q) : Q2Qc x ≤ Q2Qc y ↔ (x <= y)%Q.
Proof. unfold Qcle. cbn. rewrite !Qred_correct. reflexivity. Qed.

Lemma Qc_of_Z_Q2Qc (z : Z) : Qc_of_Z z = Q2Qc (inject_Z z).
Proof. apply Qc_is_canon. cbn. rewrite Qred_correct. reflexivity. Qed.



(** A quotient of integers, as a fraction. *)
Lemma N2Qc_div (a : N) (b : positive) :
  N2Qc a / N2Qc (N.pos b) = Q2Qc (Z.of_N a # b).
Proof.
  apply Qc_is_canon.
  change (Qred (inject_Z (Z.of_N a) * Qred (/ inject_Z (Z.pos b))) == Qred (Z.of_N a # b))%Q.
  rewrite !Qred_correct. unfold Qeq, Qmult, Qinv. cbn. lia.
Qed.

(** ** The volume metrics and their alerts *)

Lemma get0_Some (d : gmap string Qc) (k : string) (v : Qc) :
  d !! k = Some v → get0 d k = v.
Proof. unfold get0. intros ->. reflexivity. Qed.

Lemma sum_app (xs ys : list N) : pd.sum (xs ++ ys) = (pd.sum xs + pd.sum ys)%N.
Proof.
  unfold pd.sum. induction xs as [| x xs IH]; cbn [app foldr]; [reflexivity |].
  rewrite IH. lia.
Qed.











(** ** The concentration of the open interest: bounds *)

Lemma insert_by_Permutation {A} (leb : A → A → bool) (x : A) (l : list A) :
  insert_by leb x l ≡ₚ x :: l.
Proof.
  induction l as [| y l IH]; [reflexivity |].
  cbn [insert_by]. destruct (leb x y); [reflexivity |].
  rewrite IH. apply Permutation_swap.
Qed.

Lemma sort_by_Permutation {A} (leb : A → A → bool) (l : list A) :
  sort_by leb l ≡ₚ l.
Proof.
  induction l as [| x l IH]; [reflexivity |].
  cbn [sort_by foldr]. rewrite insert_by_Permutation. fold (sort_by leb l).
  rewrite IH. reflexivity.
Qed.

Lemma sum_Permutation (xs ys : list N) : xs ≡ₚ ys → pd.sum xs = pd.sum ys.
Proof.
  unfold pd.sum. induction 1 as [| x xs ys _ IH | x y xs | xs ys zs _ IH1 _ IH2];
    cbn [foldr]; [reflexivity | rewrite IH; reflexivity | lia | congruence].
Qed.

Lemma sum_take_le (n : nat) (xs : list N) : (pd.sum (take n xs) ≤ pd.sum xs)%N.
Proof.
  rewrite <- (take_drop n xs) at 2. rewrite sum_app. lia.
Qed.

(** The five largest open interests never exceed the total. *)
Lemma top_5_oi_le_total (df : DataFrame) :
  (OpenInterestAnalyzer.top_5_oi df ≤ pd.sum (openInterest <$> filas df))%N.
Proof.
  unfold OpenInterestAnalyzer.top_5_oi, pd.nlargest.
  rewrite fmap_take.
  etransitivity; [apply sum_take_le |].
  apply N.eq_le_incl, sum_Permutation, fmap_Permutation, sort_by_Permutation.
Qed.

(** With at most five contracts they are the total. *)
Lemma top_5_oi_pocos (df : DataFrame) :
  (length (filas df) ≤ 5)%nat →
  OpenInterestAnalyzer.top_5_oi df = pd.sum (openInterest <$> filas df).
Proof.
  intros Hlen. unfold OpenInterestAnalyzer.top_5_oi, pd.nlargest.
  rewrite take_ge.
  - apply sum_Permutation, fmap_Permutation, sort_by_Permutation.
  - rewrite (Permutation_length (sort_by_Permutation _ _)). exact Hlen.
Qed.

(** The concentration is a percentage: for every snapshot with contracts,
    'oi_concentration' lies between 0 and 100. *)
Theorem oi_concentration_porcentaje (df : DataFrame) :
  filas df ≠ [] →
  ∃ c : Qc, OpenInterestAnalyzer.analyze (Some df) !! "oi_concentration" = Some c
            ∧ 0 ≤ c ≤ Q2Qc 100.
Proof.
  intros Hdf. exists (OpenInterestAnalyzer.oi_concentration df).
  split; [apply analyze_oi_concentration, Hdf |].
  unfold OpenInterestAnalyzer.oi_concentration.
  pose proof (top_5_oi_le_total df) as Hle.
  destruct (pd.sum (openInterest <$> filas df)) as [| total].
  - cbn. split; [apply Qcle_refl | apply Q2Qc_le; discriminate].
  - replace (0 <? N.pos total)%N with true by reflexivity.
    rewrite N2Qc_div.
    replace (Q2Qc (Z.of_N (OpenInterestAnalyzer.top_5_oi df) # total) * Q2Qc 100)
      with (Q2Qc ((Z.of_N (OpenInterestAnalyzer.top_5_oi df) # total) * 100)).
    + split.
      * change 0 with (Q2Qc 0). apply Q2Qc_le. unfold Qle. cbn. lia.
      * apply Q2Qc_le. unfold Qle. cbn. lia.
    + apply Qc_is_canon. cbn. rewrite !Qred_correct. reflexivity.
Qed.

Lemma oi_concentration_porcentaje_witness :
  ∃ c : Qc,
    OpenInterestAnalyzer.analyze (Some snapshot_20_strikes_call_put) !! "oi_concentration"
    = Some c ∧ 0 ≤ c ≤ Q2Qc 100.
Proof.
  apply (oi_concentration_porcentaje snapshot_20_strikes_call_put). discriminate.
Defined.

Lemma oi_get_alerts_concentrado (analysis_results : gmap string Qc) :
  Qc_gtb (get0 analysis_results "oi_concentration") (Q2Qc 40) = true →
  ∃ a : Alerta, a ∈ OpenInterestAnalyzer.get_alerts analysis_results
                ∧ a !! "tipo" = Some (VStr "OI_CONCENTRADO")
                ∧ a !! "prioridad" = Some (VStr "MEDIA")
                ∧ a !! "valor" = Some (VNum (get0 analysis_results "oi_concentration")).
Proof.
  intros Hgt. unfold OpenInterestAnalyzer.get_alerts. rewrite Hgt.
  eexists. split.
  - destruct (Qc_gtb _ _ || _);
      [apply elem_of_app; left |]; apply elem_of_app; right; left.
  - split; [apply lookup_insert_eq |].
    split; rewrite ?lookup_insert_ne by discriminate; apply lookup_insert_eq.
Qed.

(** A snapshot of at most five contracts with some open interest has all of
    it in its five largest contracts: 'oi_concentration' is 100, and the
    alert OI_CONCENTRADO is raised. *)
Theorem oi_concentrado_con_pocos_contratos (df : DataFrame) :
  filas df ≠ [] → (length (filas df) ≤ 5)%nat →
  (0 < pd.sum (openInterest <$> filas df))%N →
  OpenInterestAnalyzer.analyze (Some df) !! "oi_concentration" = Some (Q2Qc 100)
  ∧ ∃ a : Alerta,
      a ∈ OpenInterestAnalyzer.get_alerts (OpenInterestAnalyzer.analyze (Some df))
      ∧ a !! "tipo" = Some (VStr "OI_CONCENTRADO")
      ∧ a !! "valor" = Some (VNum (Q2Qc 100)).
Proof.
  intros Hdf Hlen Hpos.
  assert (Hc : OpenInterestAnalyzer.oi_concentration df = Q2Qc 100).
  { unfold OpenInterestAnalyzer.oi_concentration. rewrite top_5_oi_pocos by exact Hlen.
    destruct (pd.sum (openInterest <$> filas df)) as [| total]; [lia |].
    replace (0 <? N.pos total)%N with true by reflexivity.
    rewrite N2Qc_div. apply Qc_is_canon. cbn. rewrite !Qred_correct.
    unfold Qeq, Qmult. cbn. lia. }
  assert (Hk : OpenInterestAnalyzer.analyze (Some df) !! "oi_concentration"
               = Some (Q2Qc 100)).
  { rewrite analyze_oi_concentration by exact Hdf. rewrite Hc. reflexivity. }
  split; [exact Hk |].
  destruct (oi_get_alerts_concentrado (OpenInterestAnalyzer.analyze (Some df)))
    as (a & Ha & Ht & _ & Hv).
  - rewrite (get0_Some _ _ _ Hk). reflexivity.
  - exists a. rewrite (get0_Some _ _ _ Hk) in Hv. auto.
Qed.

Lemma oi_concentrado_con_pocos_contratos_witness :
  let df := snapshot [contrato 100 CALL 10 5; contrato 95 PUT 33 7] in
  OpenInterestAnalyzer.analyze (Some df) !! "oi_concentration" = Some (Q2Qc 100).
Proof.
  intros df.
  apply (oi_concentrado_con_pocos_contratos df).
  - discriminate.
  - cbn. lia.
  - reflexivity.
Defined.

(** ** The analyzers on one table *)

(** The open-interest analyzer reads the rows of the table and whether it
    has the columns 'itm_otm' and 'expiration'. *)
Lemma oi_analyze_ext (df1 df2 : DataFrame) :
  filas df1 = filas df2 →
  in_columns "itm_otm" df1 = in_columns "itm_otm" df2 →
  in_columns "expiration" df1 = in_columns "expiration" df2 →
  OpenInterestAnalyzer.analyze (Some df1) = OpenInterestAnalyzer.analyze (Some df2).
Proof.
  intros Hf Hi He.
  unfold OpenInterestAnalyzer.analyze, BaseAnalyzer._validar_datos, empty,
    OpenInterestAnalyzer.oi_total, OpenInterestAnalyzer.oi_calls,
    OpenInterestAnalyzer.oi_puts, OpenInterestAnalyzer.oi_put_call_ratio,
    OpenInterestAnalyzer.oi_calls, OpenInterestAnalyzer.oi_puts,
    OpenInterestAnalyzer.oi_concentration, OpenInterestAnalyzer.top_5_oi,
    OpenInterestAnalyzer.oi_itm_otm_ratio, OpenInterestAnalyzer.oi_itm,
    OpenInterestAnalyzer.oi_otm, OpenInterestAnalyzer.oi_por_exp,
    OpenInterestAnalyzer.oi_por_strike.
  rewrite Hf, Hi, He. reflexivity.
Qed.

(** The pre-event metrics read the rows and whether the table has the
    column 'moneyness'. *)
Lemma analizar_volumen_pre_evento_ext (df1 df2 : DataFrame) (evento : Evento) :
  filas df1 = filas df2 →
  in_columns "moneyness" df1 = in_columns "moneyness" df2 →
  EventsAnalyzer.analizar_volumen_pre_evento df1 evento
  = EventsAnalyzer.analizar_volumen_pre_evento df2 evento.
Proof.
  intros Hf Hm.
  unfold EventsAnalyzer.analizar_volumen_pre_evento, EventsAnalyzer.vol_donde, empty.
  rewrite Hf, Hm. reflexivity.
Qed.

Lemma in_columns_analyze (k : string) (df df' : DataFrame) :
  k ≠ "vol_oi_individual" → k ≠ "peso_distancia" →
  (VolumeAnalyzer.analyze (Some df)).2 = Some df' →
  filas df' = filas df ∧ in_columns k df' = in_columns k df
  ∧ extra df' !! k = extra df !! k.
Proof.
  intros Hk1 Hk2 Hst.
  destruct (decide (filas df = [])) as [Hdf | Hdf].
  - rewrite analyze_estado_sin_datos in Hst by exact Hdf. injection Hst as <-. auto.
  - rewrite (analyze_estado df Hdf) in Hst. injection Hst as <-.
    assert (Hk1' : bool_decide (k = "vol_oi_individual") = false)
      by (apply bool_decide_eq_false_2, Hk1).
    assert (Hk2' : bool_decide (k = "peso_distancia") = false)
      by (apply bool_decide_eq_false_2, Hk2).
    destruct (in_columns "moneyness" df).
    + rewrite !in_columns_setitem, Hk1', Hk2'. cbn [setitem filas extra orb].
      rewrite !lookup_insert_ne by congruence. auto.
    + rewrite in_columns_setitem, Hk1'. cbn [setitem filas extra orb].
      rewrite lookup_insert_ne by congruence. auto.
Qed.

Lemma analizar_eventos_ext (df1 df2 : DataFrame) (evs : list Evento)
    (mpe : list (string * gmap string Qc)) :
  filas df1 = filas df2 →
  in_columns "moneyness" df1 = in_columns "moneyness" df2 →
  EventsAnalyzer.analizar_eventos (Some df1) evs mpe
  = EventsAnalyzer.analizar_eventos (Some df2) evs mpe.
Proof.
  intros Hf Hm. revert mpe. induction evs as [| ev evs IH]; intros mpe; [reflexivity |].
  cbn [EventsAnalyzer.analizar_eventos mbind option_bind].
  rewrite (analizar_volumen_pre_evento_ext df1 df2 ev Hf Hm).
  destruct (EventsAnalyzer.analizar_volumen_pre_evento df2 ev) as [m |]; [| reflexivity].
  cbn [mbind option_bind]. rewrite IH. reflexivity.
Qed.

Lemma events_analyze_ext (data_manager : bool) (now : Z) (símbolo : string)
    (df1 df2 : DataFrame) :
  filas df1 = filas df2 →
  in_columns "moneyness" df1 = in_columns "moneyness" df2 →
  in_columns "vencimiento" df1 = in_columns "vencimiento" df2 →
  extra df1 !! "vencimiento" = extra df2 !! "vencimiento" →
  EventsAnalyzer.analyze data_manager now símbolo (Some df1)
  = EventsAnalyzer.analyze data_manager now símbolo (Some df2).
Proof.
  intros Hf Hm Hv He. unfold EventsAnalyzer.analyze.
  assert (Hval : BaseAnalyzer._validar_datos (Some df1) false
                 = BaseAnalyzer._validar_datos (Some df2) false).
  { unfold BaseAnalyzer._validar_datos, empty. rewrite Hf. reflexivity. }
  rewrite Hval.
  destruct (BaseAnalyzer._validar_datos (Some df2) false); cbn [negb].
  - destruct (EventsAnalyzer.detectar_eventos_próximos now símbolo 90) as [evs |];
      [| reflexivity].
    cbn [mbind option_bind]. rewrite (analizar_eventos_ext df1 df2 evs [] Hf Hm).
    destruct (EventsAnalyzer.analizar_eventos (Some df2) evs []) as [[evs' mpe] |];
      [| reflexivity].
    cbn [mbind option_bind]. unfold empty. rewrite Hf, Hv, He. reflexivity.
  - destruct data_manager; [reflexivity |].
    destruct (EventsAnalyzer.detectar_eventos_próximos now símbolo 90) as [evs |];
      [| reflexivity].
    cbn [mbind option_bind]. rewrite (analizar_eventos_ext df1 df2 evs [] Hf Hm).
    destruct (EventsAnalyzer.analizar_eventos (Some df2) evs []) as [[evs' mpe] |];
      [| reflexivity].
    cbn [mbind option_bind]. unfold empty. rewrite Hf, Hv, He. reflexivity.
Qed.

(** What the volume analyzer writes into the table does not reach the other
    analyzers: on the table as the volume analyzer leaves it, the
    open-interest analyzer and the events analyzer return what they return
    on the table as it was. *)
Theorem analizadores_tras_volumen (data_manager : bool) (now : Z) (símbolo : string)
    (df : DataFrame) :
  OpenInterestAnalyzer.analyze (VolumeAnalyzer.analyze (Some df)).2
  = OpenInterestAnalyzer.analyze (Some df)
  ∧ EventsAnalyzer.analyze data_manager now símbolo (VolumeAnalyzer.analyze (Some df)).2
    = EventsAnalyzer.analyze data_manager now símbolo (Some df).
Proof.
  destruct (VolumeAnalyzer.analyze (Some df)).2 as [df' |] eqn:Hst.
  - destruct (in_columns_analyze "itm_otm" df df') as (Hf & Hi & _); [done | done | done |].
    destruct (in_columns_analyze "expiration" df df') as (_ & He & _); [done | done | done |].
    destruct (in_columns_analyze "moneyness" df df') as (_ & Hm & _); [done | done | done |].
    destruct (in_columns_analyze "vencimiento" df df') as (_ & Hv & Hx);
      [done | done | done |].
    split; [apply oi_analyze_ext | apply events_analyze_ext]; assumption.
  - exfalso. destruct (decide (filas df = [])) as [Hdf | Hdf].
    + rewrite analyze_estado_sin_datos in Hst by exact Hdf. discriminate Hst.
    + rewrite (analyze_estado df Hdf) in Hst. discriminate Hst.
Qed.

(** Assigning a column twice. *)
Lemma setitem_estado (df : DataFrame) (v p : string) (xs ys : list Valor) :
  setitem (setitem (setitem (setitem df v xs) p ys) v xs) p ys
  = setitem (setitem df v xs) p ys.
Proof.
  unfold setitem. cbn [filas columns extra]. f_equal.
  - apply set_eq. intros k. rewrite !elem_of_union. tauto.
  - apply map_eq. intros k.
    destruct (decide (p = k)) as [-> | Hp]; [rewrite !lookup_insert_eq; reflexivity |].
    rewrite !(lookup_insert_ne _ p) by exact Hp.
    destruct (decide (v = k)) as [-> | Hv]; [rewrite !lookup_insert_eq; reflexivity |].
    rewrite !lookup_insert_ne by assumption. reflexivity.
Qed.

Lemma setitem_setitem (df : DataFrame) (v : string) (xs : list Valor) :
  setitem (setitem df v xs) v xs = setitem df v xs.
Proof.
  unfold setitem. cbn [filas columns extra]. f_equal.
  - apply set_eq. intros k. rewrite !elem_of_union. tauto.
  - apply insert_insert_eq.
Qed.

(** Running the volume analyzer again on the table it has written into
    changes nothing: it returns the same metrics and leaves the table as the
    first run left it. *)
Theorem volume_analyze_idempotente (df : DataFrame) :
  VolumeAnalyzer.analyze (VolumeAnalyzer.analyze (Some df)).2
  = VolumeAnalyzer.analyze (Some df).
Proof.
  destruct (decide (filas df = [])) as [Hdf | Hdf].
  - rewrite analyze_estado_sin_datos by exact Hdf. reflexivity.
  - rewrite (analyze_estado df Hdf).
    unfold VolumeAnalyzer.analyze at 2.
    rewrite (validar_con_datos df true Hdf). cbn [negb].
    rewrite in_columns_setitem.
    rewrite (bool_decide_eq_false_2 ("moneyness" = "vol_oi_individual")) by discriminate.
    cbn [orb].
    destruct (in_columns "moneyness" df) eqn:Hm.
    + unfold VolumeAnalyzer.analyze.
      rewrite validar_con_datos by exact Hdf. cbn [negb].
      rewrite !in_columns_setitem, Hm.
      rewrite (bool_decide_eq_false_2 ("itm_otm" = "vol_oi_individual")) by discriminate.
      rewrite (bool_decide_eq_false_2 ("itm_otm" = "peso_distancia")) by discriminate.
      rewrite orb_true_r. cbn [orb].
      rewrite setitem_estado. reflexivity.
    + unfold VolumeAnalyzer.analyze.
      rewrite validar_con_datos by exact Hdf. cbn [negb].
      rewrite !in_columns_setitem, Hm.
      rewrite (bool_decide_eq_false_2 ("itm_otm" = "vol_oi_individual")) by discriminate.
      rewrite (bool_decide_eq_false_2 ("moneyness" = "vol_oi_individual")) by discriminate.
      cbn [orb]. rewrite setitem_setitem. reflexivity.
Qed.

(** ** The alerts of the events analyzer, rule by rule *)

Lemma alertas_pre_evento_cada_una (mpe : list (string * gmap string Qc)) :
  Forall (λ a : Alerta,
            a !! "prioridad" = Some (VStr "MEDIA")
            ∧ (a !! "tipo" = Some (VStr "VOLUMEN_DEFENSIVO_PRE_EVENTO")
               ∨ a !! "tipo" = Some (VStr "VOLUMEN_OFENSIVO_PRE_EVENTO")))
         (foldl EventsAnalyzer.alertas_pre_evento [] mpe).
Proof.
  induction mpe as [| [t m] mpe IH]; [constructor |].
  cbn [foldl]. rewrite foldl_alertas_pre_evento. apply Forall_app. split; [| exact IH].
  unfold EventsAnalyzer.alertas_pre_evento.
  destruct (Qc_gtb (get0 m "pcr_ratio") (Q2Qc (15 # 10))).
  - constructor; [| constructor]. split; [| left]; apply alerta_defensiva_campos.
  - destruct (Qc_gtb (get0 m "pcr_ratio") 0 && Qc_gtb (Q2Qc (7 # 10)) (get0 m "pcr_ratio"));
      [| constructor].
    constructor; [| constructor]. split; [| right; apply alerta_ofensiva_tipo].
    unfold EventsAnalyzer.alerta_ofensiva.
    rewrite lookup_insert_ne by discriminate. apply lookup_insert_eq.
Qed.

Lemma length_alertas_pre_evento (mpe : list (string * gmap string Qc)) :
  (length (foldl EventsAnalyzer.alertas_pre_evento [] mpe) ≤ length mpe)%nat.
Proof.
  induction mpe as [| [t m] mpe IH]; [reflexivity |].
  cbn [foldl]. rewrite foldl_alertas_pre_evento, length_app. cbn [length].
  set (resto := foldl EventsAnalyzer.alertas_pre_evento [] mpe) in *.
  unfold EventsAnalyzer.alertas_pre_evento.
  destruct (Qc_gtb (get0 m "pcr_ratio") (Q2Qc (15 # 10)));
    [| destruct (Qc_gtb (get0 m "pcr_ratio") 0 && Qc_gtb (Q2Qc (7 # 10)) (get0 m "pcr_ratio"))];
    simpl length; lia.
Qed.

Lemma events_get_alerts_forma (símbolo : string) (r : AnálisisResultado) :
  dict_vacío r = false →
  let evs := default [] (eventos r) in
  let inminentes := filter (λ e, (default 999 (ev_días_restantes e) < 7)%Z) evs in
  ∃ a_inm a_mult : Alerta,
    a_inm !! "tipo" = Some (VStr "EVENTO_INMINENTE")
    ∧ a_inm !! "prioridad" = Some (VStr "ALTA")
    ∧ a_inm !! "valor" = Some (VNum (nat2Qc (length inminentes)))
    ∧ a_mult !! "tipo" = Some (VStr "MÚLTIPLES_EVENTOS")
    ∧ a_mult !! "prioridad" = Some (VStr "MEDIA")
    ∧ a_mult !! "valor" = Some (VNum (nat2Qc (length evs)))
    ∧ EventsAnalyzer.get_alerts símbolo (Some r)
      = match inminentes with [] => [] | _ :: _ => [a_inm] end
        ++ match evs, métricas_pre_evento r with
           | _ :: _, Some mpe => foldl EventsAnalyzer.alertas_pre_evento [] mpe
           | _, _ => []
           end
        ++ (if (3 <? length evs)%nat then [a_mult] else []).
Proof.
  intros Hno evs inminentes. unfold EventsAnalyzer.get_alerts. rewrite Hno.
  fold evs. fold inminentes.
  exists ({[ "tipo" := VStr "EVENTO_INMINENTE";
             "prioridad" := VStr "ALTA";
             "descripción" :=
               VStr ("Evento inminente en "
                     +:+ fmt_int (Z.of_nat (length inminentes))
                     +:+ " día(s): "
                     +:+ String.concat ", " (ev_tipo <$> inminentes));
             "valor" := VNum (nat2Qc (length inminentes)) ]} : Alerta),
         ({[ "tipo" := VStr "MÚLTIPLES_EVENTOS";
             "prioridad" := VStr "MEDIA";
             "descripción" :=
               VStr ("Múltiples eventos próximos: "
                     +:+ fmt_int (Z.of_nat (length evs))
                     +:+ " eventos en próximos 90 días");
             "valor" := VNum (nat2Qc (length evs)) ]} : Alerta).
  split; [apply lookup_insert_eq |].
  split; [rewrite lookup_insert_ne by discriminate; apply lookup_insert_eq |].
  split; [rewrite !lookup_insert_ne by discriminate; apply lookup_singleton_eq |].
  split; [apply lookup_insert_eq |].
  split; [rewrite lookup_insert_ne by discriminate; apply lookup_insert_eq |].
  split; [rewrite !lookup_insert_ne by discriminate; apply lookup_singleton_eq |].
  clearbody inminentes. clearbody evs.
  destruct inminentes as [| e0 inm]; destruct evs as [| ev0 evs0];
    destruct (métricas_pre_evento r) as [mpe |];
    try rewrite (foldl_alertas_pre_evento (_ ++ _));
    destruct (3 <? _)%nat; cbn [app]; rewrite ?app_nil_r, <- ?app_assoc; reflexivity.
Qed.

(** The alert EVENTO_INMINENTE is raised exactly when some event has fewer
    than 7 days remaining, an event without 'días_restantes' counting as 999
    days away; there is one such alert, of priority ALTA, and its value is
    the number of those events. *)
Theorem alerta_evento_inminente (símbolo : string) (r : AnálisisResultado)
    (evs : list Evento) :
  eventos r = Some evs →
  let inminentes := filter (λ e, (default 999 (ev_días_restantes e) < 7)%Z) evs in
  ((∃ a : Alerta, a ∈ EventsAnalyzer.get_alerts símbolo (Some r)
                  ∧ a !! "tipo" = Some (VStr "EVENTO_INMINENTE"))
   ↔ ∃ e, e ∈ evs ∧ (default 999 (ev_días_restantes e) < 7)%Z)
  ∧ ∀ a : Alerta, a ∈ EventsAnalyzer.get_alerts símbolo (Some r) →
      a !! "tipo" = Some (VStr "EVENTO_INMINENTE") →
      a !! "prioridad" = Some (VStr "ALTA")
      ∧ a !! "valor" = Some (VNum (nat2Qc (length inminentes))).
Proof.
  intros Hevs inminentes.
  assert (Hno : dict_vacío r = false) by (unfold dict_vacío; rewrite Hevs; reflexivity).
  destruct (events_get_alerts_forma símbolo r Hno)
    as (a_inm & a_mult & Ht & Hp & Hv & Htm & _ & _ & Hforma).
  cbv zeta in Hforma. rewrite Hevs in Hforma, Hv.
  change (default [] (Some evs)) with evs in Hforma, Hv.
  fold inminentes in Hforma, Hv.
  assert (Hdef : ∀ e, e ∈ inminentes
                      ↔ (default 999 (ev_días_restantes e) < 7)%Z ∧ e ∈ evs)
    by (intros e;
        exact (list_elem_of_filter
                 (λ e : Evento, (default 999 (ev_días_restantes e) < 7)%Z) evs e)).
  clearbody inminentes.
  assert (Hotros : ∀ a : Alerta,
            a ∈ match evs, métricas_pre_evento r with
                | _ :: _, Some mpe => foldl EventsAnalyzer.alertas_pre_evento [] mpe
                | _, _ => []
                end ++ (if (3 <? length evs)%nat then [a_mult] else []) →
            a !! "tipo" ≠ Some (VStr "EVENTO_INMINENTE")).
  { intros a Ha. apply elem_of_app in Ha as [Ha | Ha].
    - destruct evs as [| ev evs']; [inversion Ha |].
      destruct (métricas_pre_evento r) as [mpe |]; [| inversion Ha].
      pose proof (alertas_pre_evento_cada_una mpe) as Hall.
      rewrite Forall_forall in Hall. destruct (Hall a Ha) as [_ [H | H]]; congruence.
    - destruct (3 <? length evs)%nat; [| inversion Ha].
      apply list_elem_of_singleton in Ha as ->. congruence. }
  rewrite Hforma. split.
  - split.
    + intros (a & Ha & Hta). apply elem_of_app in Ha as [Ha | Ha].
      * destruct inminentes as [| e inm]; [inversion Ha |].
        exists e. destruct (proj1 (Hdef e)) as [H1 H2]; [left | split; assumption].
      * exfalso. exact (Hotros a Ha Hta).
    + intros (e & He & Hlt).
      assert (Hin : e ∈ inminentes) by (apply Hdef; auto).
      exists a_inm. split; [| exact Ht].
      apply elem_of_app. left. destruct inminentes; [inversion Hin | left].
  - intros a Ha Hta. apply elem_of_app in Ha as [Ha | Ha].
    + destruct inminentes as [| e inm]; [inversion Ha |].
      apply list_elem_of_singleton in Ha as ->. auto.
    + exfalso. exact (Hotros a Ha Hta).
Qed.

Lemma alerta_evento_inminente_witness :
  let ev := {| ev_símbolo := Some "SPY"; ev_tipo := "fomc_meetings";
               ev_fecha := datetime.datetime 2025 1 29;
               ev_días_restantes := Some 3%Z; ev_dias_restantes := None;
               ev_sector := Some "Indices"; ev_volumen_análisis := None |} in
  let r := {| eventos := Some [ev]%list; métricas_pre_evento := None;
              concentración_vencimientos := None; cantidad_eventos := None |} in
  ∃ a : Alerta, a ∈ EventsAnalyzer.get_alerts "SPY" (Some r)
                ∧ a !! "tipo" = Some (VStr "EVENTO_INMINENTE").
Proof.
  intros ev r.
  pose proof (alerta_evento_inminente "SPY" r [ev]%list eq_refl) as H.
  cbv zeta in H. destruct H as [[_ H] _]. apply H.
  exists ev. split; [left | reflexivity].
Defined.

(** The alert MÚLTIPLES_EVENTOS is raised exactly when the result lists more
    than 3 events; its value is their number. *)
Theorem alerta_multiples_eventos (símbolo : string) (r : AnálisisResultado)
    (evs : list Evento) :
  eventos r = Some evs →
  ((∃ a : Alerta, a ∈ EventsAnalyzer.get_alerts símbolo (Some r)
                  ∧ a !! "tipo" = Some (VStr "MÚLTIPLES_EVENTOS"))
   ↔ (3 < length evs)%nat)
  ∧ ∀ a : Alerta, a ∈ EventsAnalyzer.get_alerts símbolo (Some r) →
      a !! "tipo" = Some (VStr "MÚLTIPLES_EVENTOS") →
      a !! "prioridad" = Some (VStr "MEDIA")
      ∧ a !! "valor" = Some (VNum (nat2Qc (length evs))).
Proof.
  intros Hevs.
  assert (Hno : dict_vacío r = false) by (unfold dict_vacío; rewrite Hevs; reflexivity).
  destruct (events_get_alerts_forma símbolo r Hno)
    as (a_inm & a_mult & Ht & _ & _ & Htm & Hpm & Hvm & Hforma).
  cbv zeta in Hforma. rewrite Hevs in Hforma, Hvm.
  change (default [] (Some evs)) with evs in Hforma, Hvm.
  assert (Hotros : ∀ a : Alerta,
            a ∈ match filter (λ e, (default 999 (ev_días_restantes e) < 7)%Z) evs with
                | [] => []
                | _ :: _ => [a_inm]%list
                end
            ∨ a ∈ match evs, métricas_pre_evento r with
                  | _ :: _, Some mpe => foldl EventsAnalyzer.alertas_pre_evento [] mpe
                  | _, _ => []
                  end →
            a !! "tipo" ≠ Some (VStr "MÚLTIPLES_EVENTOS")).
  { intros a [Ha | Ha].
    - destruct (filter _ evs); [inversion Ha |].
      apply list_elem_of_singleton in Ha as ->. congruence.
    - destruct evs as [| ev evs']; [inversion Ha |].
      destruct (métricas_pre_evento r) as [mpe |]; [| inversion Ha].
      pose proof (alertas_pre_evento_cada_una mpe) as Hall.
      rewrite Forall_forall in Hall. destruct (Hall a Ha) as [_ [H | H]]; congruence. }
  rewrite Hforma. split.
  - split.
    + intros (a & Ha & Hta).
      apply elem_of_app in Ha as [Ha | Ha]; [exfalso; apply (Hotros a); auto |].
      apply elem_of_app in Ha as [Ha | Ha]; [exfalso; apply (Hotros a); auto |].
      destruct (Nat.ltb_spec 3 (length evs)); [assumption | inversion Ha].
    + intros Hlen. exists a_mult. split; [| exact Htm].
      apply elem_of_app. right. apply elem_of_app. right.
      apply Nat.ltb_lt in Hlen. rewrite Hlen. left.
  - intros a Ha Hta.
    apply elem_of_app in Ha as [Ha | Ha]; [exfalso; apply (Hotros a); auto |].
    apply elem_of_app in Ha as [Ha | Ha]; [exfalso; apply (Hotros a); auto |].
    destruct (3 <? length evs)%nat; [| inversion Ha].
    apply list_elem_of_singleton in Ha as ->. auto.
Qed.

Lemma alerta_multiples_eventos_witness :
  let ev := {| ev_símbolo := Some "SPY"; ev_tipo := "fomc_meetings";
               ev_fecha := datetime.datetime 2025 1 29;
               ev_días_restantes := Some 30%Z; ev_dias_restantes := None;
               ev_sector := Some "Indices"; ev_volumen_análisis := None |} in
  let r := {| eventos := Some (replicate 4 ev); métricas_pre_evento := None;
              concentración_vencimientos := None; cantidad_eventos := None |} in
  ∃ a : Alerta, a ∈ EventsAnalyzer.get_alerts "SPY" (Some r)
                ∧ a !! "tipo" = Some (VStr "MÚLTIPLES_EVENTOS").
Proof.
  intros ev r.
  pose proof (alerta_multiples_eventos "SPY" r (replicate 4 ev) eq_refl) as H.
  destruct H as [[_ H] _]. apply H.
  cbn. lia.
Defined.

(** ** The events analysis: exceptions and the window *)

Lemma validar_no_requerido (opciones_data : option DataFrame) :
  BaseAnalyzer._validar_datos opciones_data false = true.
Proof.
  destruct opciones_data as [df |]; cbn; [destruct (empty df) |]; reflexivity.
Qed.

(** The events analysis never asks the data manager for a table: the check
    of its argument, made with [requerido=False], accepts every table, also
    an absent or an empty one. *)
Theorem events_analyze_sin_data_manager (now : Z) (símbolo : string)
    (opciones_data : option DataFrame) :
  EventsAnalyzer.analyze true now símbolo opciones_data
  = EventsAnalyzer.analyze false now símbolo opciones_data.
Proof.
  unfold EventsAnalyzer.analyze. rewrite validar_no_requerido. reflexivity.
Qed.

(** Called without a table, the events analysis raises, whatever the date:
    the absent table is read for its attribute [empty]. *)
Theorem events_analyze_sin_tabla (data_manager : bool) (now : Z) (símbolo : string) :
  EventsAnalyzer.analyze data_manager now símbolo None = None.
Proof.
  unfold EventsAnalyzer.analyze. rewrite validar_no_requerido. cbn [negb].
  destruct (EventsAnalyzer.detectar_eventos_próximos now símbolo 90) as [evs |];
    [| reflexivity].
  destruct evs; reflexivity.
Qed.





(** Every event the analyzer detects lies between 0 and [días_adelante] whole
    days ahead and carries the symbol and its sector; a negative number of
    days gives no event. *)
Theorem eventos_proximos_dias_restantes (calendario : list (string * list Z))
    (now : Z) (símbolo : string) (días_adelante : Z) (evs : list Evento) :
  EventsAnalyzer.detectar_eventos_próximos_en calendario now símbolo días_adelante
  = Some evs →
  (∀ e, e ∈ evs →
     ∃ d, ev_días_restantes e = Some d ∧ (0 ≤ d ≤ días_adelante)%Z
          ∧ ev_símbolo e = Some símbolo
          ∧ ev_sector e = Some (Config.get_símbolo_sector símbolo))
  ∧ ((días_adelante < 0)%Z → evs = []).
Proof.
  unfold EventsAnalyzer.detectar_eventos_próximos_en, datetime.timedelta, datetime.add.
  destruct (Z.abs días_adelante <=? 999999999)%Z; [| discriminate].
  cbn [mbind option_bind].
  destruct ((datetime.MIN <=? now + días_adelante * datetime.US_POR_DÍA)%Z
            && (now + días_adelante * datetime.US_POR_DÍA <=? datetime.MAX)%Z);
    [| discriminate].
  intros [= <-].
  assert (Hcada : ∀ e,
            e ∈ eventos_en_ventana calendario
                  (λ fecha, (now <=? fecha)%Z
                            && (fecha <=? now + días_adelante * datetime.US_POR_DÍA)%Z)
                  (λ tipo_evento fecha,
                     {| ev_símbolo := Some símbolo; ev_tipo := tipo_evento;
                        ev_fecha := fecha;
                        ev_días_restantes := Some (datetime.days_between fecha now);
                        ev_dias_restantes := None;
                        ev_sector := Some (BaseAnalyzer._obtener_sector símbolo);
                        ev_volumen_análisis := None |}) →
            ∃ d, ev_días_restantes e = Some d ∧ (0 ≤ d ≤ días_adelante)%Z
                 ∧ ev_símbolo e = Some símbolo
                 ∧ ev_sector e = Some (Config.get_símbolo_sector símbolo)).
  { intros e He.
    apply elem_of_eventos_en_ventana in He as (t & fs & f & _ & _ & Hw & ->).
    apply andb_true_iff in Hw as [H1 H2]. apply Z.leb_le in H1, H2.
    exists (datetime.days_between f now). cbn.
    split; [reflexivity |]. split; [| split; reflexivity].
    unfold datetime.days_between, datetime.US_POR_DÍA in *. split.
    - apply Z.div_pos; lia.
    - apply Z.div_le_upper_bound; lia. }
  split; [exact Hcada |].
  intros Hneg.
  destruct (eventos_en_ventana _ _ _) as [| e l] eqn:E; [reflexivity |].
  destruct (Hcada e) as (d & _ & Hd & _); [left | lia].
Qed.

Lemma eventos_proximos_dias_restantes_witness :
  let now := datetime.datetime 2025 1 15 in
  ∃ e d, head (default [] (EventsAnalyzer.detectar_eventos_próximos now "SPY" 90)) = Some e
         ∧ ev_días_restantes e = Some d ∧ (0 ≤ d ≤ 90)%Z.
Proof.
  intros now.
  pose proof (eventos_proximos_dias_restantes Config.EVENTOS_CALENDARIO now "SPY" 90
                (default [] (EventsAnalyzer.detectar_eventos_próximos now "SPY" 90))) as H.
  destruct H as [H _]; [vm_compute; reflexivity |].
  destruct (default [] (EventsAnalyzer.detectar_eventos_próximos now "SPY" 90))
    as [| e l] eqn:E; [vm_compute in E; discriminate E |].
  destruct (H e) as (d & Hd & Hr & _); [left |].
  exists e, d. split; [reflexivity |]. split; assumption.
Defined.

Lemma eventos_en_ventana_fmap {E F} (f : E → F) (calendario : list (string * list Z))
    (en_ventana : Z → bool) (mk : string → Z → E) :
  f <$> eventos_en_ventana calendario en_ventana mk
  = eventos_en_ventana calendario en_ventana (λ t d, f (mk t d)).
Proof.
  unfold eventos_en_ventana.
  induction calendario as [| [t fs] cal IH]; [reflexivity |].
  cbn [flat_map]. rewrite fmap_app, IH. f_equal.
  rewrite <- list_fmap_compose. reflexivity.
Qed.

(** The detector of the helpers and the detector of the events analyzer find
    the same events: the same categories and dates in the same order, with
    the same number of days, which the helper stores under 'dias_restantes'
    and the analyzer under 'días_restantes'. *)
Theorem detectores_de_eventos_coinciden (calendario : list (string * list Z))
    (now : Z) (símbolo : string) (días_adelante : Z) :
  (λ evs : list Evento, (λ e, (ev_tipo e, ev_fecha e, ev_dias_restantes e)) <$> evs)
    <$> helpers.detectar_eventos_proximos now calendario días_adelante
  = (λ evs : list Evento, (λ e, (ev_tipo e, ev_fecha e, ev_días_restantes e)) <$> evs)
      <$> EventsAnalyzer.detectar_eventos_próximos_en calendario now símbolo días_adelante.
Proof.
  unfold helpers.detectar_eventos_proximos, EventsAnalyzer.detectar_eventos_próximos_en.
  destruct (datetime.timedelta días_adelante) as [delta |]; [| reflexivity].
  cbn [mbind option_bind].
  destruct (datetime.add now delta) as [límite |]; [| reflexivity].
  cbn [mbind option_bind fmap option_fmap option_map].
  f_equal. rewrite !eventos_en_ventana_fmap. reflexivity.
Qed.

(** ** Sectors and the symbols with events *)

(** The sector [Config.get_símbolo_sector] returns is the one the helper
    [filtrar_simbolos_con_eventos] looks up, 'Unknown' standing for the
    helper's [None]. *)
Theorem sector_config_helpers (sectores : list (string * list string))
    (símbolo : string) :
  Config.get_símbolo_sector_en sectores símbolo
  = default "Unknown" (helpers.sector_de sectores símbolo).
Proof.
  unfold helpers.sector_de.
  induction sectores as [| [sector símbolos] resto IH]; [reflexivity |].
  cbn [Config.get_símbolo_sector_en]. rewrite filter_cons. cbn [snd].
  case_bool_decide as H; destruct (decide (símbolo ∈ símbolos)) as [H' | H'];
    try contradiction.
  - reflexivity.
  - exact IH.
Qed.

Lemma elem_of_dict_set {V} (d : list (string * V)) (k : string) (v : V)
    (x : string * V) :
  (∀ v0, (k, v0) ∈ d → v0 = v) →
  x ∈ dict_set d k v ↔ x ∈ d ∨ x = (k, v).
Proof.
  induction d as [| [k' v'] d IH]; intros Hfun; cbn [dict_set].
  - rewrite list_elem_of_singleton, elem_of_nil. tauto.
  - destruct (decide (k' = k)) as [-> | Hne].
    + rewrite (Hfun v') by left. rewrite !elem_of_cons. tauto.
    + rewrite !elem_of_cons, IH; [tauto |].
      intros v0 H0. apply Hfun. right. exact H0.
Qed.

Lemma foldl_filtrar_simbolos (sectores : list (string * list string))
    (hay_eventos : bool) (simbolos : list string) (acc : list (string * string)) :
  let paso := λ (simbolos_con_eventos : list (string * string)) (simbolo : string),
    match helpers.sector_de sectores simbolo with
    | Some sector =>
        if bool_decide (sector ≠ "") && hay_eventos
        then dict_set simbolos_con_eventos simbolo sector
        else simbolos_con_eventos
    | None => simbolos_con_eventos
    end in
  (hay_eventos = false → foldl paso acc simbolos = acc)
  ∧ (hay_eventos = true →
     (∀ s sec, (s, sec) ∈ acc → helpers.sector_de sectores s = Some sec) →
     ∀ s sec, (s, sec) ∈ foldl paso acc simbolos
              ↔ (s, sec) ∈ acc
                ∨ (s ∈ simbolos ∧ helpers.sector_de sectores s = Some sec ∧ sec ≠ "")).
Proof.
  intros paso. split.
  - intros ->. revert acc. induction simbolos as [| s l IH]; intros acc; [reflexivity |].
    cbn [foldl]. rewrite IH. unfold paso.
    destruct (helpers.sector_de sectores s); [| reflexivity].
    rewrite andb_false_r. reflexivity.
  - intros ->. revert acc.
    induction simbolos as [| s0 l IH]; intros acc Hacc s sec.
    + cbn [foldl]. rewrite elem_of_nil. tauto.
    + cbn [foldl].
      assert (Hpaso : ∀ x, x ∈ paso acc s0
                ↔ x ∈ acc ∨ ∃ sec0, x = (s0, sec0)
                                   ∧ helpers.sector_de sectores s0 = Some sec0
                                   ∧ sec0 ≠ "").
      { intros x. unfold paso.
        destruct (helpers.sector_de sectores s0) as [sec0 |] eqn:E.
        - rewrite andb_true_r. case_bool_decide as Hs.
          + rewrite elem_of_dict_set.
            * split; [intros [H | ->]; [left; exact H | right; exists sec0; auto] |].
              intros [H | (sec1 & -> & [= ->] & _)]; auto.
            * intros v0 H0. apply Hacc in H0. congruence.
          + split; [auto |]. intros [H | (sec1 & -> & [= ->] & H)]; [exact H | contradiction].
        - split; [auto |]. intros [H | (sec1 & _ & H & _)]; [exact H | discriminate]. }
      rewrite IH.
      * rewrite Hpaso, elem_of_cons. split.
        -- intros [[H | (sec0 & [= -> ->] & H1 & H2)] | (H1 & H2 & H3)]; auto.
        -- intros [H | ([-> | H1] & H2 & H3)]; auto.
           left. right. exists sec. auto.
      * intros s1 sec1 H1. apply Hpaso in H1 as [H1 | (sec0 & [= -> ->] & H1 & _)]; auto.
Qed.

(** [filtrar_simbolos_con_eventos] does not filter by symbol: when no event
    is upcoming the result is empty, and as soon as one is, the result holds
    every given symbol that has a sector, with that sector. *)
Theorem filtrar_simbolos_todos_o_ninguno (now : Z) (simbolos : list string)
    (eventos_calendario : list (string * list Z))
    (sectores : list (string * list string)) (dias_adelante : Z)
    (eventos_proximos : list Evento) :
  helpers.detectar_eventos_proximos now eventos_calendario dias_adelante
  = Some eventos_proximos →
  ∃ r, helpers.filtrar_simbolos_con_eventos now simbolos eventos_calendario sectores
         dias_adelante = Some r
       ∧ (eventos_proximos = [] → r = [])
       ∧ (eventos_proximos ≠ [] →
          ∀ s sec, (s, sec) ∈ r
                   ↔ s ∈ simbolos ∧ helpers.sector_de sectores s = Some sec ∧ sec ≠ "").
Proof.
  intros Hdet. unfold helpers.filtrar_simbolos_con_eventos.
  rewrite Hdet. cbn [mbind option_bind].
  eexists. split; [reflexivity |].
  pose proof (foldl_filtrar_simbolos sectores (bool_decide (eventos_proximos ≠ []))
                simbolos []) as H.
  cbv zeta in H. destruct H as [Hno Hsi]. split.
  - intros Hvacío. apply Hno. apply bool_decide_eq_false. auto.
  - intros Hhay s sec. rewrite Hsi.
    + rewrite elem_of_nil. tauto.
    + apply bool_decide_eq_true. exact Hhay.
    + intros ? ? H. inversion H.
Qed.

Lemma filtrar_simbolos_todos_o_ninguno_witness :
  let now := datetime.datetime 2025 1 15 in
  ∃ r, helpers.filtrar_simbolos_con_eventos now ["SPY"; "ZZZ"] Config.EVENTOS_CALENDARIO
         Config.SECTORES 90 = Some r
       ∧ ("SPY", "Indices") ∈ r.
Proof.
  intros now.
  destruct (filtrar_simbolos_todos_o_ninguno now ["SPY"; "ZZZ"] Config.EVENTOS_CALENDARIO
              Config.SECTORES 90
              (default [] (helpers.detectar_eventos_proximos now
                             Config.EVENTOS_CALENDARIO 90)))
    as (r & Hr & _ & Hsi).
  - vm_compute. reflexivity.
  - exists r. split; [exact Hr |]. apply Hsi.
    + vm_compute. discriminate.
    + split; [left |]. split; [vm_compute; reflexivity | discriminate].
Defined.

(** ** The consolidated alerts *)

Lemma elem_of_flat_map {A B} (f : A → list B) (l : list A) (x : B) :
  x ∈ flat_map f l ↔ ∃ y, y ∈ l ∧ x ∈ f y.
Proof.
  induction l as [| a l IH]; cbn [flat_map].
  - rewrite elem_of_nil. split; [tauto |]. intros (y & H & _). inversion H.
  - rewrite elem_of_app, IH. split.
    + intros [H | (y & H1 & H2)]; [exists a; split; [left | exact H] |].
      exists y. split; [right; exact H1 | exact H2].
    + intros (y & H1 & H2). apply elem_of_cons in H1 as [-> | H1]; [left; exact H2 |].
      right. exists y. auto.
Qed.

(** The consolidated list holds exactly the alerts of the analyzers that
    have the key 'alerts', each completed with its symbol and its analyzer:
    sorting loses and invents nothing. *)
Theorem consolidar_alertas_procedencia
    (análisis_resultados : list (string * list (string * ReportGenerator.Resultado)))
    (a : Alerta) :
  a ∈ ReportGenerator.consolidar_alertas análisis_resultados
  ↔ ∃ símbolo resultados_símbolo analyzer_name resultado als alerta,
      (símbolo, resultados_símbolo) ∈ análisis_resultados
      ∧ (analyzer_name, resultado) ∈ resultados_símbolo
      ∧ ReportGenerator.alerts resultado = Some als
      ∧ alerta ∈ als
      ∧ a = ReportGenerator.alerta_completa símbolo analyzer_name alerta.
Proof.
  unfold ReportGenerator.consolidar_alertas, helpers.ordenar_alertas_por_prioridad, sorted.
  rewrite (sort_by_Permutation _ _).
  unfold ReportGenerator.alertas_consolidadas. rewrite elem_of_flat_map. split.
  - intros ([símbolo rs] & Hin & Ha).
    apply elem_of_flat_map in Ha as ([nombre r] & Hin' & Ha).
    destruct (ReportGenerator.alerts r) as [als |] eqn:E; [| inversion Ha].
    apply list_elem_of_fmap in Ha as (alerta & -> & Hal).
    exists símbolo, rs, nombre, r, als, alerta. auto.
  - intros (símbolo & rs & nombre & r & als & alerta & H1 & H2 & H3 & H4 & ->).
    exists (símbolo, rs). split; [exact H1 |].
    apply elem_of_flat_map. exists (nombre, r). split; [exact H2 |].
    rewrite H3. apply list_elem_of_fmap. exists alerta. auto.
Qed.

Lemma sort_by_ordenada {A} (key : A → nat) (l : list A) :
  StronglySorted (λ x y, key x ≤ key y)%nat l →
  sort_by (λ x y, key x <=? key y)%nat l = l.
Proof.
  induction 1 as [| y l Hl IH Hy]; [reflexivity |].
  cbn [sort_by foldr]. fold (sort_by (λ x y, key x <=? key y)%nat l). rewrite IH.
  destruct l as [| z l']; [reflexivity |]. cbn [insert_by].
  apply Forall_inv in Hy. apply Nat.leb_le in Hy. rewrite Hy. reflexivity.
Qed.

(** Sorting the alerts by priority a second time changes nothing. *)
Theorem ordenar_alertas_idempotente (alertas : list Alerta) :
  helpers.ordenar_alertas_por_prioridad (helpers.ordenar_alertas_por_prioridad alertas)
  = helpers.ordenar_alertas_por_prioridad alertas.
Proof.
  unfold helpers.ordenar_alertas_por_prioridad, sorted.
  apply sort_by_ordenada. apply sort_by_sorted.
Qed.

(** ** The caches of the data manager *)

(** A price that was fetched is answered from the cache for the next five
    minutes: a second request made less than 300 seconds after the price was
    stored gives the same answer and leaves the caches as they are, whatever
    the data source would answer then.  This holds also for the answer [None]
    of a price of 0, stored when the source names no price. *)
Theorem precio_en_cache_cinco_minutos (st : DataManager.Estado)
    (now now' now2 now2' : Z) (symbol : string) (ticker ticker2 : DataManager.Ticker) :
  is_Some (DataManager.info ticker) →
  (∀ p t, DataManager.precios_cache st !! symbol = Some (p, t) →
          DataManager.reciente now t 300 = false) →
  (now2 - now' < 300 * 1000000)%Z →
  let r := DataManager.obtener_precio_actual st now now' symbol ticker in
  DataManager.obtener_precio_actual r.2 now2 now2' symbol ticker2 = r.
Proof.
  intros [i Hi] Hviejo Hpronto. cbv zeta.
  assert (Hmiss : match DataManager.precios_cache st !! symbol with
                  | Some (precio, timestamp) =>
                      if DataManager.reciente now timestamp 300 then Some precio else None
                  | None => None
                  end = None).
  { destruct (DataManager.precios_cache st !! symbol) as [[p t] |] eqn:E; [| reflexivity].
    rewrite (Hviejo p t eq_refl). reflexivity. }
  set (p := default (default 0 (i !! "regularMarketPrice")) (i !! "currentPrice")).
  set (st1 := {| DataManager.opciones_cache := DataManager.opciones_cache st;
                 DataManager.precios_cache :=
                   <[symbol := (p, now')]> (DataManager.precios_cache st);
                 DataManager.vencimientos_cache := DataManager.vencimientos_cache st |}).
  assert (Hr : DataManager.obtener_precio_actual st now now' symbol ticker
               = (if Qc_gtb p 0 then Some p else None, st1)).
  { unfold DataManager.obtener_precio_actual, DataManager._obtener_precio_cached.
    rewrite Hmiss, Hi. reflexivity. }
  rewrite Hr. cbn [snd].
  unfold DataManager.obtener_precio_actual, DataManager._obtener_precio_cached.
  subst st1. cbn [DataManager.precios_cache]. rewrite lookup_insert_eq.
  assert (Hrec : DataManager.reciente now2 now' 300 = true)
    by (unfold DataManager.reciente; apply Z.ltb_lt; exact Hpronto).
  rewrite Hrec. reflexivity.
Qed.

Lemma precio_en_cache_cinco_minutos_witness :
  let ticker := {| DataManager.info := Some {[ "currentPrice" := Q2Qc 100 ]};
                   DataManager.options := None |} in
  let sin_datos := {| DataManager.info := None; DataManager.options := None |} in
  let r := DataManager.obtener_precio_actual DataManager.inicial 0 0 "SPY" ticker in
  DataManager.obtener_precio_actual r.2 299999999 299999999 "SPY" sin_datos = r.
Proof.
  intros ticker sin_datos.
  apply (precio_en_cache_cinco_minutos DataManager.inicial 0 0 299999999 299999999
           "SPY" ticker sin_datos).
  - eexists. reflexivity.
  - intros p t H. vm_compute in H. discriminate H.
  - lia.
Defined.

(** Asking for a price answers a positive price or [None], touches neither
    the tables nor the expiration lists nor the price of another symbol, and
    stores nothing when the data source fails. *)
Theorem obtener_precio_actual_efectos (st : DataManager.Estado) (now now' : Z)
    (symbol : string) (ticker : DataManager.Ticker) :
  let r := DataManager.obtener_precio_actual st now now' symbol ticker in
  (∀ p, r.1 = Some p → 0 < p)
  ∧ DataManager.opciones_cache r.2 = DataManager.opciones_cache st
  ∧ DataManager.vencimientos_cache r.2 = DataManager.vencimientos_cache st
  ∧ (∀ s, s ≠ symbol →
       DataManager.precios_cache r.2 !! s = DataManager.precios_cache st !! s)
  ∧ (DataManager.info ticker = None → r.2 = st).
Proof.
  cbv zeta. unfold DataManager.obtener_precio_actual.
  destruct (DataManager._obtener_precio_cached st now now' symbol ticker)
    as [precio st'] eqn:E.
  cbn [fst snd]. split.
  { intros p. unfold Qc_gtb. case_bool_decide as Hp; [| discriminate].
    intros [= <-]. exact Hp. }
  unfold DataManager._obtener_precio_cached in E.
  destruct (match DataManager.precios_cache st !! symbol with
            | Some (precio, timestamp) =>
                if DataManager.reciente now timestamp 300 then Some precio else None
            | None => None
            end) as [p |].
  { injection E as _ <-. auto. }
  destruct (DataManager.info ticker) as [i |].
  - injection E as _ <-. cbn. split; [reflexivity |]. split; [reflexivity |].
    split; [| discriminate]. intros s Hs. rewrite lookup_insert_ne by congruence.
    reflexivity.
  - injection E as _ <-. auto.
Qed.

Lemma prefix_app (s s' x : string) :
  String.prefix s s' = true → String.prefix s (s' +:+ x) = true.
Proof.
  revert s'. induction s as [| a s IH]; intros s'.
  - intros _. destruct s'; [destruct x |]; reflexivity.
  - destruct s' as [| b s']; [discriminate |].
    change (String b s' +:+ x) with (String b (s' +:+ x)).
    cbn [String.prefix]. destruct (Ascii.ascii_dec a b); [apply IH | discriminate].
Qed.

(** [limpiar_cache(symbol)] removes the tables of every symbol whose name
    starts with [symbol], but only the price and the expiration list of
    [symbol] itself. *)
Theorem limpiar_cache_por_prefijo (st : DataManager.Estado) (symbol symbol' : string)
    (n : Z) :
  symbol ≠ "" → String.prefix symbol symbol' = true →
  let st' := DataManager.limpiar_cache st (Some symbol) in
  DataManager.opciones_cache st' !! DataManager.cache_key symbol' n = None
  ∧ DataManager.precios_cache st' !! symbol = None
  ∧ DataManager.vencimientos_cache st' !! symbol = None
  ∧ (symbol' ≠ symbol →
     DataManager.precios_cache st' !! symbol' = DataManager.precios_cache st !! symbol'
     ∧ DataManager.vencimientos_cache st' !! symbol'
       = DataManager.vencimientos_cache st !! symbol').
Proof.
  intros Hs Hpre st'. subst st'.
  destruct symbol as [| a symbol]; [congruence |].
  cbn [DataManager.limpiar_cache DataManager.opciones_cache DataManager.precios_cache
       DataManager.vencimientos_cache].
  split.
  { apply map_lookup_filter_None. right. intros x _ Hno. apply Hno. cbn [fst].
    unfold DataManager.cache_key. apply prefix_app. exact Hpre. }
  rewrite !lookup_delete_eq. split; [reflexivity |]. split; [reflexivity |].
  intros Hne. rewrite !lookup_delete_ne by congruence. auto.
Qed.

Lemma limpiar_cache_por_prefijo_witness :
  let st := {| DataManager.opciones_cache := {[ "MSFT_3" := snapshot [] ]};
               DataManager.precios_cache := {[ "MSFT" := (Q2Qc 400, 0%Z) ]};
               DataManager.vencimientos_cache := ∅ |} in
  let st' := DataManager.limpiar_cache st (Some "MS") in
  DataManager.opciones_cache st' !! "MSFT_3" = None
  ∧ DataManager.precios_cache st' !! "MSFT" = Some (Q2Qc 400, 0%Z).
Proof.
  intros st st'.
  pose proof (limpiar_cache_por_prefijo st "MS" "MSFT" 3) as H.
  cbv zeta in H. destruct H as (H1 & _ & _ & H2); [discriminate | reflexivity |].
  split; [exact H1 |]. destruct H2 as [H2 _]; [discriminate |].
  fold st' in H2. rewrite H2. reflexivity.
Defined.

(** ** The analysis of one symbol *)

(** What [ejecutar_análisis_símbolo] returns.  Without data the result is
    empty.  Otherwise it holds the volume and the open-interest entries, each
    analyzer's metrics and alerts being those of the table as the data
    manager returned it, and the entry of the events analyzer exactly when
    the events analysis of that table does not raise. *)
Theorem ejecutar_analisis_simbolo_resultados (now : Z) (símbolo : string)
    (opciones_data : option DataFrame) :
  AnalisisInstPosiciones.ejecutar_análisis_símbolo now símbolo opciones_data
  = match opciones_data with
    | None => []
    | Some df =>
        if empty df then []
        else
          let vol_result := (VolumeAnalyzer.analyze (Some df)).1 in
          let oi_result := OpenInterestAnalyzer.analyze (Some df) in
          [ ("volume_analyzer",
              {| AnalisisInstPosiciones.r_metrics :=
                   AnalisisInstPosiciones.MétricasVolumen vol_result;
                 AnalisisInstPosiciones.r_alerts := VolumeAnalyzer.get_alerts vol_result;
                 AnalisisInstPosiciones.r_eventos := None |});
            ("open_interest_analyzer",
              {| AnalisisInstPosiciones.r_metrics :=
                   AnalisisInstPosiciones.MétricasOI oi_result;
                 AnalisisInstPosiciones.r_alerts :=
                   OpenInterestAnalyzer.get_alerts oi_result;
                 AnalisisInstPosiciones.r_eventos := None |}) ]
          ++ match EventsAnalyzer.analyze true now símbolo (Some df) with
             | None => []
             | Some events_result =>
                 [ ("events_analyzer",
                     {| AnalisisInstPosiciones.r_metrics :=
                          AnalisisInstPosiciones.MétricasEventos events_result;
                        AnalisisInstPosiciones.r_alerts :=
                          EventsAnalyzer.get_alerts símbolo (Some events_result);
                        AnalisisInstPosiciones.r_eventos :=
                          Some (default [] (eventos events_result)) |}) ]%list
             end
    end.
Proof.
  destruct opciones_data as [df |]; [| reflexivity].
  unfold AnalisisInstPosiciones.ejecutar_análisis_símbolo.
  destruct (empty df) eqn:Hvacía; [reflexivity |].
  assert (Hdf : filas df ≠ []).
  { unfold empty in Hvacía. destruct (filas df); [discriminate Hvacía | discriminate]. }
  pose proof (analyze_estado df Hdf) as Hst.
  destruct (VolumeAnalyzer.analyze (Some df)) as [vol_result st] eqn:Hvol.
  cbn [fst snd] in Hst |- *. cbv zeta.
  assert (Hdf' : ∃ df', st = Some df') by (rewrite Hst; eauto).
  destruct Hdf' as [df' ->].
  assert (Hst' : (VolumeAnalyzer.analyze (Some df)).2 = Some df') by (rewrite Hvol; reflexivity).
  destruct (in_columns_analyze "itm_otm" df df') as (Hf & Hi & _); [done | done | done |].
  destruct (in_columns_analyze "expiration" df df') as (_ & He & _); [done | done | done |].
  destruct (in_columns_analyze "moneyness" df df') as (_ & Hm & _); [done | done | done |].
  destruct (in_columns_analyze "vencimiento" df df') as (_ & Hv & Hx);
    [done | done | done |].
  rewrite (oi_analyze_ext df' df Hf Hi He).
  rewrite (events_analyze_ext true now símbolo df' df Hf Hm Hv Hx).
  cbn [dict_set]. repeat (case_decide; [discriminate |]). cbn [dict_set].
  destruct (EventsAnalyzer.analyze true now símbolo (Some df)) as [r |]; [| reflexivity].
  cbn [dict_set]. repeat (case_decide; [discriminate |]). reflexivity.
Qed.

(** The cache of expiration lists never holds an empty list, and an empty
    answer leaves the caches as they are: a symbol without expirations is
    asked for again at every call. *)
Theorem vencimientos_cache_sin_listas_vacias (st : DataManager.Estado) (now now' : Z)
    (symbol : string) (ticker : DataManager.Ticker) :
  (∀ s l t, DataManager.vencimientos_cache st !! s = Some (l, t) → l ≠ []) →
  let r := DataManager._obtener_vencimientos_cached st now now' symbol ticker in
  (∀ s l t, DataManager.vencimientos_cache r.2 !! s = Some (l, t) → l ≠ [])
  ∧ (r.1 = [] → r.2 = st).
Proof.
  intros Hinv. cbv zeta. unfold DataManager._obtener_vencimientos_cached.
  destruct (match DataManager.vencimientos_cache st !! symbol with
            | Some (exp_dates, timestamp) =>
                if DataManager.reciente now timestamp 600 then Some exp_dates else None
            | None => None
            end) as [exp_dates |].
  { cbn [fst snd]. auto. }
  destruct (DataManager.options ticker) as [[| d ds] |]; cbn [fst snd]; auto.
  split; [| intros H; discriminate H].
  cbn [DataManager.vencimientos_cache]. intros s l t.
  destruct (decide (s = symbol)) as [-> | Hne].
  - rewrite lookup_insert_eq. intros [= <- _]. discriminate.
  - rewrite lookup_insert_ne by congruence. apply Hinv.
Qed.

Lemma vencimientos_cache_sin_listas_vacias_witness :
  let ticker := {| DataManager.info := None;
                   DataManager.options := Some ["2025-01-17"]%list |} in
  let r := DataManager._obtener_vencimientos_cached DataManager.inicial 0 0 "SPY" ticker in
  ∃ l t, DataManager.vencimientos_cache r.2 !! "SPY" = Some (l, t) ∧ l ≠ [].
Proof.
  intros ticker r.
  assert (Hinv : ∀ s l t, DataManager.vencimientos_cache DataManager.inicial !! s
                          = Some (l, t) → l ≠ []).
  { intros s l t H. cbn in H. rewrite lookup_empty in H. discriminate H. }
  pose proof (vencimientos_cache_sin_listas_vacias DataManager.inicial 0 0 "SPY"
                ticker Hinv) as H.
  cbv zeta in H. destruct H as [H _]. fold r in H.
  exists ["2025-01-17"]%list, 0%Z.
  assert (Hl : DataManager.vencimientos_cache r.2 !! "SPY"
               = Some (["2025-01-17"]%list, 0%Z)) by (vm_compute; reflexivity).
  split; [exact Hl | exact (H "SPY" _ _ Hl)].
Defined.

(** ** The symbols of the configuration *)

(** [get_todos_símbolos] lists exactly the symbols to which the helper finds
    a sector. *)
Theorem todos_simbolos_tienen_sector (sectores : list (string * list string))
    (símbolo : string) :
  símbolo ∈ get_todos_símbolos_en sectores
  ↔ is_Some (helpers.sector_de sectores símbolo).
Proof.
  unfold get_todos_símbolos_en, helpers.sector_de.
  induction sectores as [| [sector símbolos] resto IH]; cbn [flat_map].
  - rewrite filter_nil. split; [inversion 1 | intros [x H]; cbn in H; discriminate H].
  - rewrite elem_of_app, filter_cons. cbn [snd].
    destruct (decide (símbolo ∈ símbolos)) as [H | H].
    + split; [intros _; eexists; reflexivity | intros _; left; exact H].
    + rewrite <- IH. split; [intros [H' | H']; [contradiction | exact H'] | auto].
Qed.
